(** * PS rental orders: billing state machine of the order server

    A shallow embedding of the order server (the newer of the two server
    variants kept in the repository): the inline billing arithmetic of the
    create / edit / complete handlers, the identifier lookup
    [findOrderByAnyId], the soft-delete / restore transitions, the periodic
    auto-complete sweep and the chunked Telegram sender.

    Modelling conventions.
    - A JavaScript [Number] that holds a money amount or a [Date] in
      milliseconds is an integer of [Z]; in the handlers quotients such as
      [summa / PRICE_PER_HOUR] are exact rationals of [Q], and [Math.floor],
      [Math.ceil] are [Qfloor], [Qceiling].  The server computes them on
      IEEE 754 doubles: [Binary64] evaluates the same billing lines
      operation by operation on binary64 floats, and [Server64] holds the
      two handlers that bill with these lines in place.  The two
      computations differ at some inputs (a cash amount of 32500 at the
      default price, an elapsed time of 124 minutes); the theorems on the
      handlers say of an amount or a duration what holds on both, and the
      last section compares the two.
    - An instant outside the range of a [Date] (8.64e15 ms either side of
      the epoch) is an Invalid Date: a document that holds one cannot be
      saved.
    - A Mongoose document is a record; the collection is a list of records in
      insertion order, so that [findOne] returns the first match.
    - [type] and [status] are open strings, as in the schema; the enum
      validators of the schema run in [save].
    - Every [new Date()] of a handler is an explicit argument.
    - Fire-and-forget notifications of the handlers are left out; the
      chunked sender is modelled by the list of texts handed to
      [sendToTelegram]. *)

From Stdlib Require Import ZArith QArith Qround List String Ascii Bool Lia Lqa.
From Stdlib Require Import Permutation.
From Stdlib Require PrimFloat FloatOps SpecFloat Uint63.
Import ListNotations.

Local Open Scope Z_scope.

(** ** JavaScript numerics *)

Module JS.

Definition Math_floor (x : Q) : Z := Qfloor x.
Definition Math_ceil (x : Q) : Z := Qceiling x.

(** [Number(process.env.X) || dflt]: [None] stands for a missing or
    non-numeric variable (NaN), which is falsy like [0]. *)
Definition Number_or (env : option Z) (dflt : Z) : Z :=
  match env with
  | Some n => if n =? 0 then dflt else n
  | None => dflt
  end.

(** [new Date(t)] for a number [t] is an Invalid Date unless
    [|t| <= 8.64e15]. *)
Definition Date_valid (t : Z) : bool := Z.abs t <=? 8640000000000000.

(** A value handed to a [Date] path of a schema: [null] or a date.  An
    Invalid Date fails the cast, and the [save] of the document throws. *)
Definition Date_castable (d : option Z) : bool :=
  match d with
  | Some t => Date_valid t
  | None => true
  end.

End JS.

Import JS.

(** ** Billing arithmetic (inline in the handlers) *)

Section Billing.

Variable env_PRICE_PER_HOUR : option Z.

(** [const PRICE_PER_HOUR = Number(process.env.PRICE_PER_HOUR) || 15000] *)
Definition PRICE_PER_HOUR : Z := Number_or env_PRICE_PER_HOUR 15000.

(** create / edit, cash branch:
    [hours = summa / PRICE_PER_HOUR; ms = Math.floor(hours * 3600 * 1000)] *)
Definition cashDurationFromAmount (summa : Z) : Z :=
  let hours := (inject_Z summa / inject_Z PRICE_PER_HOUR)%Q in
  let ms := Math_floor (hours * 3600 * 1000)%Q in
  ms.

(** complete (both branches) and daily report overlay:
    [s = Math.ceil(diffMs / (3600 * 1000) * PRICE_PER_HOUR);
     s = Math.ceil(s / 1000) * 1000] *)
Definition accruedOfMs (diffMs : Z) : Z :=
  let diffHours := (inject_Z diffMs / (3600 * 1000))%Q in
  let oynaganSumma := Math_ceil (diffHours * inject_Z PRICE_PER_HOUR)%Q in
  let oynaganSumma := Math_ceil (inject_Z oynaganSumma / 1000)%Q * 1000 in
  oynaganSumma.

(** vip branch of complete and the overlay of the daily report:
    [diffMs = end - start] with [end = new Date()]. *)
Definition vipAccruedAmount (startTime now : Z) : Z :=
  let diffMs := now - startTime in
  accruedOfMs diffMs.

End Billing.

(** Ceiling division on integers, the closed form of the two [Math.ceil]. *)
Definition cdiv (a b : Z) : Z := - ((- a) / b).

(** ** The billing arithmetic on doubles

    The same lines, every operation rounded to binary64 as the server
    computes it.  [None] stands for NaN and the infinities. *)

Module Binary64.

(** The double nearest to an integer [z], for [|z| < 2^63]; exact below
    [2^53]. *)
Definition of_Z (z : Z) : PrimFloat.float :=
  if z <? 0 then
    PrimFloat.opp (PrimFloat.of_uint63 (Uint63.of_Z (- z)))
  else PrimFloat.of_uint63 (Uint63.of_Z z).

(** The rational a finite double stands for. *)
Definition value (f : PrimFloat.float) : option Q :=
  match FloatOps.Prim2SF f with
  | SpecFloat.S754_zero _ => Some 0%Q
  | SpecFloat.S754_finite s m e =>
      let mag :=
        if 0 <=? e then inject_Z (Zpos m * 2 ^ e)
        else Qmake (Zpos m) (Pos.pow 2 (Z.to_pos (- e))) in
      Some (if s then Qopp mag else mag)
  | _ => None
  end.

Definition Math_floor (f : PrimFloat.float) : option Z :=
  option_map Qfloor (value f).
Definition Math_ceil (f : PrimFloat.float) : option Z :=
  option_map Qceiling (value f).

(** [Math.floor(ms / 60000)] *)
Definition minutesOfMs (ms : Z) : option Z :=
  Math_floor (PrimFloat.div (of_Z ms) (of_Z 60000)).

(** [hours = summa / PRICE_PER_HOUR; ms = Math.floor(hours * 3600 * 1000)] *)
Definition cashDurationFromAmount (PRICE_PER_HOUR summa : Z) : option Z :=
  let hours := PrimFloat.div (of_Z summa) (of_Z PRICE_PER_HOUR) in
  let ms :=
    Math_floor (PrimFloat.mul (PrimFloat.mul hours (of_Z 3600)) (of_Z 1000)) in
  ms.

(** [s = Math.ceil(diffMs / (3600 * 1000) * PRICE_PER_HOUR);
     s = Math.ceil(s / 1000) * 1000] *)
Definition accruedOfMs (PRICE_PER_HOUR diffMs : Z) : option Z :=
  let hour := PrimFloat.mul (of_Z 3600) (of_Z 1000) in
  let diffHours := PrimFloat.div (of_Z diffMs) hour in
  match Math_ceil (PrimFloat.mul diffHours (of_Z PRICE_PER_HOUR)) with
  | Some oynaganSumma =>
      match Math_ceil (PrimFloat.div (of_Z oynaganSumma) (of_Z 1000)) with
      | Some thousands =>
          Math_floor (PrimFloat.mul (of_Z thousands) (of_Z 1000))
      | None => None
      end
  | None => None
  end.

End Binary64.

(** The two computations side by side: the doubles give the exact accrued
    amount or 1000 more, the exact duration or one millisecond less. *)
Definition accrued_near (price diffMs : Z) : bool :=
  match Binary64.accruedOfMs price diffMs with
  | Some a =>
      let exact := accruedOfMs (Some price) diffMs in
      (a =? exact) || (a =? exact + 1000)
  | None => false
  end.

Definition duration_near (price summa : Z) : bool :=
  match Binary64.cashDurationFromAmount price summa with
  | Some ms =>
      let exact := cashDurationFromAmount (Some price) summa in
      (ms =? exact) || (ms =? exact - 1)
  | None => false
  end.

(** [lo], [lo + step], ..., [n] values in all. *)
Definition grid (lo step : Z) (n : nat) : list Z :=
  map (fun i => lo + step * Z.of_nat i) (seq 0 n).

Definition sample_prices : list Z := [10000; 12000; 15000; 20000; 30000].

(** ** Documents and the collection *)

(** A document of the [Order] model.  [prevStatus] is not a path of the
    schema: the handlers set it as a plain property of the loaded document,
    and [save] does not persist it. *)
Record Order := mkOrder {
  _id : string;
  orderId : Z;
  externalId : string;
  ps : string;
  type : string;
  startTime : Z;
  endTime : option Z;
  summa : Z;
  status : string;
  createdAt : Z;
  completedAt : option Z;
  deletedAt : option Z;
  prevStatus : option string
}.

Definition set_ps (v : string) (o : Order) : Order :=
  mkOrder (_id o) (orderId o) (externalId o) v (type o) (startTime o)
          (endTime o) (summa o) (status o) (createdAt o) (completedAt o)
          (deletedAt o) (prevStatus o).
Definition set_type (v : string) (o : Order) : Order :=
  mkOrder (_id o) (orderId o) (externalId o) (ps o) v (startTime o)
          (endTime o) (summa o) (status o) (createdAt o) (completedAt o)
          (deletedAt o) (prevStatus o).
Definition set_startTime (v : Z) (o : Order) : Order :=
  mkOrder (_id o) (orderId o) (externalId o) (ps o) (type o) v
          (endTime o) (summa o) (status o) (createdAt o) (completedAt o)
          (deletedAt o) (prevStatus o).
Definition set_endTime (v : option Z) (o : Order) : Order :=
  mkOrder (_id o) (orderId o) (externalId o) (ps o) (type o) (startTime o)
          v (summa o) (status o) (createdAt o) (completedAt o)
          (deletedAt o) (prevStatus o).
Definition set_summa (v : Z) (o : Order) : Order :=
  mkOrder (_id o) (orderId o) (externalId o) (ps o) (type o) (startTime o)
          (endTime o) v (status o) (createdAt o) (completedAt o)
          (deletedAt o) (prevStatus o).
Definition set_status (v : string) (o : Order) : Order :=
  mkOrder (_id o) (orderId o) (externalId o) (ps o) (type o) (startTime o)
          (endTime o) (summa o) v (createdAt o) (completedAt o)
          (deletedAt o) (prevStatus o).
Definition set_completedAt (v : option Z) (o : Order) : Order :=
  mkOrder (_id o) (orderId o) (externalId o) (ps o) (type o) (startTime o)
          (endTime o) (summa o) (status o) (createdAt o) v
          (deletedAt o) (prevStatus o).
Definition set_deletedAt (v : option Z) (o : Order) : Order :=
  mkOrder (_id o) (orderId o) (externalId o) (ps o) (type o) (startTime o)
          (endTime o) (summa o) (status o) (createdAt o) (completedAt o)
          v (prevStatus o).
Definition set_prevStatus (v : option string) (o : Order) : Order :=
  mkOrder (_id o) (orderId o) (externalId o) (ps o) (type o) (startTime o)
          (endTime o) (summa o) (status o) (createdAt o) (completedAt o)
          (deletedAt o) v.

(** The database: the [Order] collection and the [seq] of the counter
    document named ["orderId"] ([None] while that document does not exist). *)
Record Db := mkDb {
  orders : list Order;
  counter : option Z
}.

Definition with_orders (l : list Order) (db : Db) : Db := mkDb l (counter db).

(** [Counter.findByIdAndUpdate(name, { $inc: { seq: 1 } }, { new: true,
    upsert: true })]: the incremented value and the updated database. *)
Definition getNextSequence (db : Db) : Z * Db :=
  let seq := match counter db with Some n => n + 1 | None => 1 end in
  (seq, mkDb (orders db) (Some seq)).

(** Enum validators of the schema, run by [save]. *)
Definition type_enum : list string := ["cash"%string; "vip"%string].
Definition status_enum : list string :=
  ["process"%string; "completed"%string; "trash"%string].

Definition validate (o : Order) : bool :=
  existsb (String.eqb (type o)) type_enum
  && existsb (String.eqb (status o)) status_enum.

(** What [save] writes: the paths of the schema. *)
Definition persisted (o : Order) : Order := set_prevStatus None o.

(** The update [save] issues for a loaded document [o], seen from a stored
    document [d]: the document with the [_id] of [o] takes its paths. *)
Definition replace_doc (o d : Order) : Order :=
  if String.eqb (_id d) (_id o) then persisted o else d.

(** [o.save()] of a document loaded from the collection: [None] when the
    validation throws. *)
Definition save (o : Order) (db : Db) : option Db :=
  if validate o then
    Some (with_orders (map (replace_doc o) (orders db)) db)
  else None.

(** [o.save()] of a new document: validation, then the pre-save hook that
    allocates [orderId], then the insert. *)
Definition save_new (o : Order) (db : Db) : option (Order * Db) :=
  if validate o then
    let '(n, db1) := getNextSequence db in
    let o1 := mkOrder (_id o) n (externalId o) (ps o) (type o) (startTime o)
                      (endTime o) (summa o) (status o) (createdAt o)
                      (completedAt o) (deletedAt o) (prevStatus o) in
    Some (o1, with_orders (orders db1 ++ [persisted o1]) db1)
  else None.

(** What a handler answers: [res.json(body)] or [res.status(code).json(..)]. *)
Inductive Response (A : Type) : Type :=
| Json (body : A)
| Status (code : Z).
Arguments Json {A} body.
Arguments Status {A} code.

(** Body of a create or edit request; [None] is [undefined].  [body_amount]
    is the value of [Number(amount)], [body_startTime] the instant of
    [new Date(startTime)] for a truthy [startTime]. *)
Record OrderBody := mkBody {
  body_ps : option string;
  body_type : option string;
  body_amount : option Z;
  body_startTime : option Z;
  body_status : option string
}.

(** [if (s)] on an optional string: [undefined] and the empty string are
    falsy. *)
Definition truthy (s : option string) : option string :=
  match s with
  | Some EmptyString => None
  | other => other
  end.

(** Answer of the complete handler. *)
Record CompleteBody := mkCompleteBody {
  order : Order;
  qaytish : Z;
  oynaganSumma : Z;
  oynaganMinut : Z;
  qolganMinut : Z
}.

(** Two documents with the same [_id], [orderId] and [externalId]. *)
Definition same_keys (o o' : Order) : Prop :=
  _id o' = _id o /\ orderId o' = orderId o /\ externalId o' = externalId o.

(** The two assignments every completion ends with:
    [o.status = "completed"; o.completedAt = ...]. *)
Definition mark_completed (at_ : Z) (o : Order) : Order :=
  set_completedAt (Some at_) (set_status "completed" o).

(** The [type] an edit request leaves on the loaded document before its
    amount block runs: [if (type) o.type = type]. *)
Definition type_after (body : OrderBody) (o : Order) : string :=
  match truthy (body_type body) with
  | Some v => v
  | None => type o
  end.

(** The [status] an edit request saves: [if (status) o.status = status]. *)
Definition status_after (body : OrderBody) (o : Order) : string :=
  match truthy (body_status body) with
  | Some v => v
  | None => status o
  end.

(** ** The server *)

Section Server.

(** Configuration and library functions the server is linked with:
    [process.env.PRICE_PER_HOUR], [mongoose.Types.ObjectId.isValid] and the
    coercion [Number(id)] of an identifier ([None] is NaN). *)
Variable env_PRICE_PER_HOUR : option Z.
Variable ObjectId_isValid : string -> bool.
Variable Number_ : string -> option Q.

(** *** Queries *)

(** [Order.findById(id)] *)
Definition findById (coll : list Order) (id : string) : option Order :=
  find (fun o => String.eqb (_id o) id) coll.

(** [Order.findOne({ orderId: n })] *)
Definition findOne_orderId (coll : list Order) (n : Q) : option Order :=
  find (fun o => Qeq_bool (inject_Z (orderId o)) n) coll.

(** [Order.findOne({ externalId: id })] *)
Definition findOne_externalId (coll : list Order) (id : string)
  : option Order :=
  find (fun o => String.eqb (externalId o) id) coll.

(** helper: find order by _id or orderId (number) or externalId (string) *)
Definition findOrderByAnyId (coll : list Order) (id : string)
  : option Order :=
  let byId := if ObjectId_isValid id then findById coll id else None in
  match byId with
  | Some o => Some o
  | None =>
      let byOrderId :=
        match Number_ id with
        | Some n => findOne_orderId coll n
        | None => None
        end in
      match byOrderId with
      | Some o => Some o
      | None =>
          match findOne_externalId coll id with
          | Some o => Some o
          | None => None
          end
      end
  end.

(** *** create order: [api.post("/order")]

    [now] is [new Date()], [created] is [Date.now()] of the schema default,
    [new_id] and [new_externalId] are the generated [_id] and
    [shortid.generate()].  An [end] that is an Invalid Date fails the cast
    of [endTime]: [o.save()] throws before anything is written. *)
Definition post_order (db : Db) (body : OrderBody)
           (now created : Z) (new_id new_externalId : string)
  : Response Order * Db :=
  let ps_ := match body_ps body with Some v => v | None => "PS1"%string end in
  let type_ := match body_type body with Some v => v | None => "vip"%string end in
  let amount := match body_amount body with Some v => v | None => 0 end in
  if String.eqb type_ "cash" && ((amount =? 0) || (amount <=? 0)) then
    (Status 400, db)
  else
    let start := match body_startTime body with Some t => t | None => now end in
    let summa_ := amount in
    let end_ :=
      if String.eqb type_ "cash" then
        let ms := cashDurationFromAmount env_PRICE_PER_HOUR summa_ in
        Some (start + ms)
      else None in
    let o := mkOrder new_id 0 new_externalId ps_ type_ start end_ summa_
                     "process" created None None None in
    match (if Date_castable end_ then save_new o db else None) with
    | Some (o', db') => (Json o', db')
    | None => (Status 500, db)
    end.

(** *** edit order: [api.put("/order/:id")] *)

(** [if (ps) o.ps = ps; if (type) o.type = type;
     if (startTime) o.startTime = new Date(startTime);] *)
Definition assign_fields (body : OrderBody) (o : Order) : Order :=
  let o := match truthy (body_ps body) with
           | Some v => set_ps v o | None => o end in
  let o := match truthy (body_type body) with
           | Some v => set_type v o | None => o end in
  let o := match body_startTime body with
           | Some v => set_startTime v o | None => o end in
  o.

(** The amount block: [inl code] is the answer [res.status(code)] of the
    request, the early [return] of a refused amount or, for an [endTime]
    that is an Invalid Date, the [catch] around the [o.save()] that throws
    on it. *)
Definition edit_amount (newAmount : Z) (o : Order) : Z + Order :=
  if String.eqb (type o) "vip" && (summa o <? newAmount) then inl 400
  else if String.eqb (type o) "cash" && (newAmount <=? 0) then inl 400
  else
    let o := set_summa newAmount o in
    if String.eqb (type o) "cash" then
      let ms := cashDurationFromAmount env_PRICE_PER_HOUR (summa o) in
      if Date_valid (startTime o + ms) then
        inr (set_endTime (Some (startTime o + ms)) o)
      else inl 500
    else inr (set_endTime None o).

Definition put_order (db : Db) (id : string) (body : OrderBody)
  : Response Order * Db :=
  match findOrderByAnyId (orders db) id with
  | None => (Status 404, db)
  | Some o =>
      let o := assign_fields body o in
      let after_amount :=
        match body_amount body with
        | Some newAmount => edit_amount newAmount o
        | None => inr o
        end in
      match after_amount with
      | inl code => (Status code, db)
      | inr o =>
          let o := match truthy (body_status body) with
                   | Some v => set_status v o | None => o end in
          match save o db with
          | Some db' => (Json o, db')
          | None => (Status 500, db)
          end
      end
  end.

(** *** complete order: [api.post("/complete/:id")]

    [now] is the [new Date()] of the branch taken, [completedNow] the
    later [new Date()] stored in [completedAt]. *)
Definition post_complete (db : Db) (id : string) (now completedNow : Z)
  : Response CompleteBody * Db :=
  match findOrderByAnyId (orders db) id with
  | None => (Status 404, db)
  | Some o =>
      let r :=
        if String.eqb (type o) "vip" then
          let start := startTime o in
          let end_ := now in
          let diffMs := end_ - start in
          let oynaganMinut_ := Math_floor (inject_Z diffMs / 60000)%Q in
          let oynaganSumma_ := accruedOfMs env_PRICE_PER_HOUR diffMs in
          mkCompleteBody (set_endTime (Some end_) (set_summa oynaganSumma_ o))
                         0 oynaganSumma_ oynaganMinut_ 0
        else if String.eqb (type o) "cash" then
          let start := startTime o in
          let oynaganMs := now - start in
          let oynaganMinut_ := Math_floor (inject_Z oynaganMs / 60000)%Q in
          let oynaganSumma_ := accruedOfMs env_PRICE_PER_HOUR oynaganMs in
          match endTime o with
          | Some end_ =>
              if now <? end_ then
                let qolganMinut_ :=
                  Math_floor (inject_Z (end_ - now) / 60000)%Q in
                let qaytish_ := summa o - oynaganSumma_ in
                mkCompleteBody
                  (set_endTime (Some now) (set_summa oynaganSumma_ o))
                  qaytish_ oynaganSumma_ oynaganMinut_ qolganMinut_
              else mkCompleteBody o 0 oynaganSumma_ oynaganMinut_ 0
          | None => mkCompleteBody o 0 oynaganSumma_ oynaganMinut_ 0
          end
        else mkCompleteBody o 0 0 0 0 in
      let o := set_status "completed" (order r) in
      let o := set_completedAt (Some completedNow) o in
      match save o db with
      | Some db' =>
          (Json (mkCompleteBody o (qaytish r) (oynaganSumma r)
                                (oynaganMinut r) (qolganMinut r)), db')
      | None => (Status 500, db)
      end
  end.

(** *** delete: [api.delete("/order/:id")] and its two aliases

    [permanent] is [req.query.permanent == "1"], [superKey] tells whether a
    [super-key] or [x-super-key] header is present.  The body is [None]
    for the bare [{ ok: true }] of a permanent delete. *)
Definition delete_order (db : Db) (id : string) (permanent superKey : bool)
           (now : Z) : Response (option Order) * Db :=
  match findOrderByAnyId (orders db) id with
  | None => (Status 404, db)
  | Some o =>
      if permanent then
        if negb superKey then (Status 403, db)
        else
          (Json None,
           with_orders
             (filter (fun d => negb (String.eqb (_id d) (_id o))) (orders db))
             db)
      else
        let prev := if String.eqb (status o) "process"
                    then "process"%string else status o in
        let o := set_prevStatus (Some prev) o in
        let o := set_status "trash" o in
        let o := set_deletedAt (Some now) o in
        match save o db with
        | Some db' => (Json (Some o), db')
        | None => (Status 500, db)
        end
  end.

(** [api.delete("/completed/:id")] *)
Definition delete_completed (db : Db) (id : string) (now : Z)
  : Response Order * Db :=
  match findOrderByAnyId (orders db) id with
  | None => (Status 404, db)
  | Some o =>
      if negb (String.eqb (status o) "completed") then (Status 400, db)
      else
        let o := set_status "trash" o in
        let o := set_deletedAt (Some now) o in
        match save o db with
        | Some db' => (Json o, db')
        | None => (Status 500, db)
        end
  end.

(** [api.delete("/orders/:id")] *)
Definition delete_orders (db : Db) (id : string) (now : Z)
  : Response Order * Db :=
  match findOrderByAnyId (orders db) id with
  | None => (Status 404, db)
  | Some o =>
      let o := set_status "trash" o in
      let o := set_deletedAt (Some now) o in
      match save o db with
      | Some db' => (Json o, db')
      | None => (Status 500, db)
      end
  end.

(** *** restore from trash: [api.post("/restore/:id")] *)
Definition post_restore (db : Db) (id : string) (now : Z)
  : Response Order * Db :=
  match findOrderByAnyId (orders db) id with
  | None => (Status 404, db)
  | Some o =>
      if negb (String.eqb (status o) "trash") then (Status 400, db)
      else
        let o := set_status "completed" o in
        let o := set_completedAt (Some now) o in
        let o := set_deletedAt None o in
        let o := set_prevStatus None o in
        match save o db with
        | Some db' => (Json o, db')
        | None => (Status 500, db)
        end
  end.

(** *** daily report: the overlay of [api.get("/daily-report")]

    The callback of [orders.map]; the flag is [_calculated]. *)
Definition report_overlay (now : Z) (o : Order) : Order * bool :=
  if String.eqb (status o) "process" && String.eqb (type o) "vip" then
    let diffMs := now - startTime o in
    (set_summa (accruedOfMs env_PRICE_PER_HOUR diffMs) o, true)
  else (o, false).

(** *** the auto-complete sweep: the callback of [setInterval] *)

(** [{ status: "process", type: "cash", endTime: { $lte: now } }] *)
Definition expired (now : Z) (o : Order) : bool :=
  String.eqb (status o) "process" && String.eqb (type o) "cash"
  && match endTime o with Some e => e <=? now | None => false end.

(** [for (const o of expired) { ... await o.save(); ... }]; a [save] that
    throws leaves the loop, into the [catch] around it. *)
Fixpoint autoComplete_loop (now : Z) (found : list Order) (db : Db) : Db :=
  match found with
  | [] => db
  | o :: rest =>
      let o := set_status "completed" o in
      let o := set_completedAt (Some now) o in
      match save o db with
      | Some db' => autoComplete_loop now rest db'
      | None => db
      end
  end.

Definition autoComplete (db : Db) (now : Z) : Db :=
  autoComplete_loop now (filter (expired now) (orders db)) db.

End Server.

(** ** Create and complete on doubles

    The two handlers that bill, with every billing line evaluated in
    binary64; the rest is [post_order] and [post_complete] as above.  A
    NaN handed to a [Number] or [Date] path fails its cast, and [o.save()]
    throws. *)

Module Server64.

Section Handlers.

Variable env_PRICE_PER_HOUR : option Z.
Variable ObjectId_isValid : string -> bool.
Variable Number_ : string -> option Q.

(** [api.post("/order")] *)
Definition post_order (db : Db) (body : OrderBody)
           (now created : Z) (new_id new_externalId : string)
  : Response Order * Db :=
  let ps_ := match body_ps body with Some v => v | None => "PS1"%string end in
  let type_ := match body_type body with Some v => v | None => "vip"%string end in
  let amount := match body_amount body with Some v => v | None => 0 end in
  if String.eqb type_ "cash" && ((amount =? 0) || (amount <=? 0)) then
    (Status 400, db)
  else
    let start := match body_startTime body with Some t => t | None => now end in
    let summa_ := amount in
    let end_ :=
      if String.eqb type_ "cash" then
        match Binary64.cashDurationFromAmount
                (PRICE_PER_HOUR env_PRICE_PER_HOUR) summa_ with
        | Some ms => if Date_valid (start + ms) then Some (Some (start + ms))
                     else None
        | None => None
        end
      else Some None in
    match end_ with
    | Some end_ =>
        let o := mkOrder new_id 0 new_externalId ps_ type_ start end_ summa_
                         "process" created None None None in
        match save_new o db with
        | Some (o', db') => (Json o', db')
        | None => (Status 500, db)
        end
    | None => (Status 500, db)
    end.

(** [api.post("/complete/:id")] *)
Definition post_complete (db : Db) (id : string) (now completedNow : Z)
  : Response CompleteBody * Db :=
  match findOrderByAnyId ObjectId_isValid Number_ (orders db) id with
  | None => (Status 404, db)
  | Some o =>
      let r :=
        if String.eqb (type o) "vip" then
          let start := startTime o in
          let end_ := now in
          let diffMs := end_ - start in
          match Binary64.minutesOfMs diffMs,
                Binary64.accruedOfMs (PRICE_PER_HOUR env_PRICE_PER_HOUR)
                                     diffMs with
          | Some oynaganMinut_, Some oynaganSumma_ =>
              Some (mkCompleteBody
                      (set_endTime (Some end_) (set_summa oynaganSumma_ o))
                      0 oynaganSumma_ oynaganMinut_ 0)
          | _, _ => None
          end
        else if String.eqb (type o) "cash" then
          let start := startTime o in
          let oynaganMs := now - start in
          match Binary64.minutesOfMs oynaganMs,
                Binary64.accruedOfMs (PRICE_PER_HOUR env_PRICE_PER_HOUR)
                                     oynaganMs with
          | Some oynaganMinut_, Some oynaganSumma_ =>
              match endTime o with
              | Some end_ =>
                  if now <? end_ then
                    match Binary64.minutesOfMs (end_ - now) with
                    | Some qolganMinut_ =>
                        let qaytish_ := summa o - oynaganSumma_ in
                        Some (mkCompleteBody
                                (set_endTime (Some now)
                                   (set_summa oynaganSumma_ o))
                                qaytish_ oynaganSumma_ oynaganMinut_
                                qolganMinut_)
                    | None => None
                    end
                  else Some (mkCompleteBody o 0 oynaganSumma_ oynaganMinut_ 0)
              | None => Some (mkCompleteBody o 0 oynaganSumma_ oynaganMinut_ 0)
              end
          | _, _ => None
          end
        else Some (mkCompleteBody o 0 0 0 0) in
      match r with
      | Some r =>
          let o := set_status "completed" (order r) in
          let o := set_completedAt (Some completedNow) o in
          match save o db with
          | Some db' =>
              (Json (mkCompleteBody o (qaytish r) (oynaganSumma r)
                                    (oynaganMinut r) (qolganMinut r)), db')
          | None => (Status 500, db)
          end
      | None => (Status 500, db)
      end
  end.

End Handlers.

End Server64.

(** The saves of one run of the sweep over the documents [found], seen from
    one stored document [d]. *)
Definition sweep_saves (now : Z) (found : list Order) (d : Order) : Order :=
  fold_left (fun d o => replace_doc (mark_completed now o) d) found d.

(** ** Telegram helper (chunked) *)

Module Telegram.

(** A string is its sequence of code units; [length] counts them. *)
Definition MAX : nat := 4000.

Definition nl : string := String (ascii_of_nat 10) EmptyString.

(** White space and line terminators removed by [String.prototype.trim]
    (the code units below 256). *)
Definition is_space (c : ascii) : bool :=
  existsb (Nat.eqb (nat_of_ascii c)) [9; 10; 11; 12; 13; 32; 160]%nat.

Fixpoint trimStart (s : string) : string :=
  match s with
  | EmptyString => EmptyString
  | String c rest => if is_space c then trimStart rest else s
  end.

Fixpoint rev_string (s acc : string) : string :=
  match s with
  | EmptyString => acc
  | String c rest => rev_string rest (String c acc)
  end.

Definition trim (s : string) : string :=
  rev_string (trimStart (rev_string (trimStart s) EmptyString)) EmptyString.

(** Truthiness of a string. *)
Definition nonempty (s : string) : bool :=
  match s with EmptyString => false | _ => true end.

(** [title ? `<b>${title}</b>\n` : empty], the start value of [chunk]. *)
Definition first_chunk (title : string) : string :=
  if nonempty title
  then String.append "<b>" (String.append title (String.append "</b>" nl))
  else EmptyString.

(** One turn of [for (const line of lines)]: the state is the list of
    texts handed to [sendToTelegram] so far and the current [chunk]. *)
Definition step (st : list string * string) (line : string)
  : list string * string :=
  let '(sent, chunk) := st in
  let '(sent, chunk) :=
    if (MAX <? String.length (String.append (String.append chunk line) nl))%nat
    then (sent ++ [chunk], EmptyString)
    else (sent, chunk) in
  (sent, String.append chunk (String.append line nl)).

(** [sendToTelegramChunks(lines, title)], the title empty by default: the
    texts handed to
    [sendToTelegram], in order. *)
Definition sendToTelegramChunks (lines : list string) (title : string)
  : list string :=
  let '(sent, chunk) := fold_left step lines ([], first_chunk title) in
  if nonempty (trim chunk) then sent ++ [chunk] else sent.

(** The texts of a list of messages, one after the other. *)
Fixpoint flatten (texts : list string) : string :=
  match texts with
  | [] => EmptyString
  | t :: rest => String.append t (flatten rest)
  end.

(** [line + "\n"] *)
Definition with_nl (line : string) : string := String.append line nl.

(** A text that is within [MAX], or else is the start value of [chunk] or
    one line of [lines] with its newline, on its own. *)
Definition fits_or_alone (first : string) (lines : list string) (m : string)
  : Prop :=
  (String.length m <= MAX)%nat
  \/ m = first
  \/ exists line, In line lines /\ m = with_nl line.

End Telegram.

(** ** Sample instances used by the examples *)

Module Sample.

Definition is_hex (c : ascii) : bool :=
  let n := nat_of_ascii c in
  ((48 <=? n) && (n <=? 57) || (97 <=? n) && (n <=? 102)
   || (65 <=? n) && (n <=? 70))%nat.

Fixpoint all_chars (p : ascii -> bool) (s : string) : bool :=
  match s with
  | EmptyString => true
  | String c rest => p c && all_chars p rest
  end.

(** An [ObjectId.isValid] for strings: 24 hexadecimal digits. *)
Definition isValid (s : string) : bool :=
  (String.length s =? 24)%nat && all_chars is_hex s.

Fixpoint digits (s : string) (acc : Z) : option Z :=
  match s with
  | EmptyString => Some acc
  | String c rest =>
      let n := nat_of_ascii c in
      if ((48 <=? n) && (n <=? 57))%nat
      then digits rest (10 * acc + Z.of_nat (n - 48))
      else None
  end.

(** A [Number] for strings of decimal digits; every other string is NaN
    here. *)
Definition Number_ (s : string) : option Q :=
  match s with
  | EmptyString => None
  | _ => option_map inject_Z (digits s 0)
  end.

Definition empty : Db := mkDb [] None.

(** The body a handler answered with, if it answered with one. *)
Definition answer {A : Type} (r : Response A * Db) : option A :=
  match fst r with
  | Json b => Some b
  | Status _ => None
  end.

Definition body (ty : string) (amount : option Z) (start : option Z)
  : OrderBody :=
  mkBody None (Some ty) amount start None.

Fixpoint repeat_char (c : ascii) (n : nat) : string :=
  match n with
  | O => EmptyString
  | S k => String c (repeat_char c k)
  end.

(** A vip order with amount 1000, and a cash order, both in process. *)
Definition vip1 : Order :=
  mkOrder "aaaaaaaaaaaaaaaaaaaaaaa1" 1 "x1" "PS1" "vip" 0 None 1000
          "process" 0 None None None.
Definition cash2 : Order :=
  mkOrder "aaaaaaaaaaaaaaaaaaaaaaa2" 2 "x2" "PS2" "cash" 0 (Some 7200000)
          30000 "process" 0 None None None.
(** An order whose externalId reads as the number [2]. *)
Definition ext3 : Order :=
  mkOrder "aaaaaaaaaaaaaaaaaaaaaaa3" 3 "2" "PS3" "vip" 0 None 0
          "process" 0 None None None.

Definition db3 : Db := mkDb [vip1; ext3; cash2] (Some 3).

End Sample.

(** ** Administration: daily reset, archive, clear, report, super key *)

(** A document of the [Archive] model. *)
Module ArchiveDoc.

Record t := mk {
  date : string;
  orders : list Order;
  totalSum : Z;
  createdAt : Z
}.

End ArchiveDoc.

(** The two collections the administrative routes work on, with the
    counter. *)
Record Store := mkStore {
  db : Db;
  archives : list ArchiveDoc.t
}.

(** The last [orderId] issued: the [seq] of the counter, 0 before the first
    [$inc]. *)
Definition seq_value (d : Db) : Z :=
  match counter d with
  | Some n => n
  | None => 0
  end.

(** What the schema and the allocator keep of a collection: distinct [_id]
    and [orderId], every [orderId] issued by the counter, every document
    within the enums. *)
Definition well_formed (d : Db) : Prop :=
  NoDup (map _id (orders d))
  /\ NoDup (map orderId (orders d))
  /\ 0 <= seq_value d
  /\ Forall (fun o => validate o = true /\ 0 < orderId o <= seq_value d)
            (orders d).

(** [{ status: { $in: ["process", "completed"] } }] *)
Definition active (o : Order) : bool :=
  String.eqb (status o) "process" || String.eqb (status o) "completed".

(** [{ $set: { status: "trash", deletedAt: new Date() } }] *)
Definition to_trash (now : Z) (o : Order) : Order :=
  set_deletedAt (Some now) (set_status "trash" o).

(** [orders.reduce((sum, o) => sum + (o.summa || 0), 0)] *)
Definition totalSum (l : list Order) : Z :=
  fold_left (fun sum o => sum + summa o) l 0.

(** [createdAt: { $gte: start, $lte: end }] *)
Definition created_between (dayStart dayEnd : Z) (o : Order) : bool :=
  (dayStart <=? createdAt o) && (createdAt o <=? dayEnd).

(** [api.post("/daily-reset")]: the [modifiedCount] it answers and the
    [updateMany] on the collection.  The backup it sends to Telegram first
    is left out: [sendToTelegram] never throws, so the update always
    follows. *)
Definition daily_reset (d : Db) (now : Z) : nat * Db :=
  let updated := List.length (filter active (orders d)) in
  (updated,
   with_orders (map (fun o => if active o then to_trash now o else o)
                    (orders d)) d).

(** [api.post("/archive-day")].  [dayStart], [dayEnd] are the two
    [setHours] instants, [dateStr] is [start.toISOString().slice(0, 10)],
    [now] the [new Date()] of the update and [created] the [Date.now()] of
    the archive.  [Json None] is the answer [{ ok: false, error }]. *)
Definition archive_day (st : Store) (dayStart dayEnd : Z) (dateStr : string)
           (now created : Z) : Response (option (nat * Z)) * Store :=
  let found :=
    filter (fun o => created_between dayStart dayEnd o && active o)
           (orders (db st)) in
  match found with
  | [] => (Json None, st)
  | _ :: _ =>
      let total := totalSum found in
      let arch := ArchiveDoc.mk dateStr found total created in
      let ids := map _id found in
      let trashed :=
        map (fun o => if existsb (String.eqb (_id o)) ids
                      then to_trash now o else o)
            (orders (db st)) in
      (Json (Some (List.length found, total)),
       mkStore (with_orders trashed (db st)) (archives st ++ [arch]))
  end.

(** [api.post("/clear")]: [totalCount], [totalSum], [archiveCount] and the
    two [deleteMany({})]; the counter collection is not touched.  The two
    backups sent to Telegram first are left out. *)
Definition clear (st : Store) : (nat * Z * nat) * Store :=
  let total := totalSum (orders (db st)) in
  ((List.length (orders (db st)), total, List.length (archives st)),
   mkStore (with_orders [] (db st)) []).

(** [a || b] on optional strings. *)
Definition or_else (a b : option string) : option string :=
  match truthy a with
  | Some v => Some v
  | None => b
  end.

(** [const SUPER_KEY = process.env.SUPER_KEY || "supersecret"] *)
Definition SUPER_KEY (env : option string) : string :=
  match truthy env with
  | Some k => k
  | None => "supersecret"%string
  end.

(** [superMiddleware]: [true] is [next()], [false] the 403.  The four
    arguments are [req.headers["super-key"]], [req.headers["x-super-key"]],
    [req.body.superKey] and [req.query.superKey]. *)
Definition superMiddleware (env : option string)
           (h1 h2 bodyKey queryKey : option string) : bool :=
  let key := or_else h1 (or_else h2 (or_else bodyKey queryKey)) in
  match key with
  | Some k => String.eqb k (SUPER_KEY env)
  | None => false
  end.

(** The test of the permanent delete:
    [!(!req.headers["super-key"] && !req.headers["x-super-key"])]. *)
Definition has_super_header (h1 h2 : option string) : bool :=
  negb (match truthy h1 with Some _ => false | None => true end
        && match truthy h2 with Some _ => false | None => true end).

Section MoreRoutes.

Variable env_PRICE_PER_HOUR : option Z.
Variable ObjectId_isValid : string -> bool.
Variable Number_ : string -> option Q.

(** [api.post("/complete/:id")] of the older server variant: the vip branch
    meters, every other order only gets an [endTime] when it has none; an
    [endTime] that is an Invalid Date makes [o.save()] throw. *)
Definition post_complete_old (d : Db) (id : string) (now completedNow : Z)
  : Response Order * Db :=
  match findOrderByAnyId ObjectId_isValid Number_ (orders d) id with
  | None => (Status 404, d)
  | Some o =>
      let o :=
        if String.eqb (type o) "vip" then
          let start := startTime o in
          let end_ := now in
          let summa_ := accruedOfMs env_PRICE_PER_HOUR (end_ - start) in
          Some (set_endTime (Some end_) (set_summa summa_ o))
        else
          match endTime o with
          | Some _ => Some o
          | None =>
              let end_ :=
                startTime o
                + cashDurationFromAmount env_PRICE_PER_HOUR (summa o) in
              if Date_valid end_ then Some (set_endTime (Some end_) o)
              else None
          end in
      match o with
      | Some o =>
          let o := set_status "completed" o in
          let o := set_completedAt (Some completedNow) o in
          match save o d with
          | Some d' => (Json o, d')
          | None => (Status 500, d)
          end
      | None => (Status 500, d)
      end
  end.

(** [api.get("/daily-report")]: count, total and the overlaid orders (the
    [date] string of the answer is left out).  [dayStart] and [dayEnd] are
    the two [setHours] instants, [sort_createdAt] is the
    [.sort({ createdAt: 1 })] of the query. *)
Variable sort_createdAt : list Order -> list Order.

Definition daily_report (d : Db) (dayStart dayEnd now : Z)
  : nat * Z * list (Order * bool) :=
  let found :=
    sort_createdAt
      (filter (fun o => created_between dayStart dayEnd o
                        && negb (String.eqb (status o) "trash"))
              (orders d)) in
  let shown := map (report_overlay env_PRICE_PER_HOUR now) found in
  let total := fold_left (fun sum r => sum + summa (fst r)) shown 0 in
  (List.length shown, total, shown).

End MoreRoutes.

Module Sample2.

(** A completed order and a trashed one, created on the same day as the
    orders of [Sample.db3]. *)
Definition done4 : Order :=
  mkOrder "aaaaaaaaaaaaaaaaaaaaaaa4" 4 "x4" "PS4" "cash" 0 (Some 3600000)
          15000 "completed" 0 (Some 3600000) None None.
Definition gone5 : Order :=
  mkOrder "aaaaaaaaaaaaaaaaaaaaaaa5" 5 "x5" "PS5" "vip" 0 (Some 3600000)
          15000 "trash" 0 (Some 3600000) (Some 4000000) None.

Definition db5 : Db :=
  mkDb [Sample.vip1; Sample.ext3; Sample.cash2; done4; gone5] (Some 5).

Definition store5 : Store := mkStore db5 [].

End Sample2.

Arguments accruedOfMs : simpl never.
Arguments cashDurationFromAmount : simpl never.
Arguments Math_floor : simpl never.
Arguments Math_ceil : simpl never.

(** ** Arithmetic facts *)



Lemma Math_ceil_ratio (a b : Z) :
  Math_ceil (inject_Z a / inject_Z b)%Q = - ((- a) / b).
Proof.
  unfold Math_ceil, Qceiling. f_equal.
  rewrite (Zdiv_Qdiv (- a) b). apply Qfloor_comp.
  rewrite inject_Z_opp. unfold Qdiv. ring.
Qed.

Lemma cdiv_spec (a b : Z) :
  0 < b -> b * (cdiv a b - 1) < a <= b * cdiv a b.
Proof.
  intros Hb. unfold cdiv.
  pose proof (Z.div_mod (- a) b ltac:(lia)) as E.
  pose proof (Z.mod_pos_bound (- a) b Hb) as B.
  nia.
Qed.

Lemma cdiv_unique (a b c : Z) :
  0 < b -> b * (c - 1) < a <= b * c -> cdiv a b = c.
Proof.
  intros Hb H. pose proof (cdiv_spec a b Hb). nia.
Qed.

Lemma cdiv_nonneg (a b : Z) : 0 < b -> 0 <= a -> 0 <= cdiv a b.
Proof. intros Hb Ha. pose proof (cdiv_spec a b Hb). nia. Qed.

Lemma cdiv_cdiv (a b c : Z) :
  0 < b -> 0 < c -> cdiv (cdiv a b) c = cdiv a (b * c).
Proof.
  intros Hb Hc. symmetry. apply cdiv_unique; [nia|].
  pose proof (cdiv_spec a b Hb).
  pose proof (cdiv_spec (cdiv a b) c Hc).
  nia.
Qed.

Section BillingFacts.

Variable env : option Z.


Lemma accruedOfMs_Z (diffMs : Z) :
  accruedOfMs env diffMs = cdiv (cdiv (diffMs * PRICE_PER_HOUR env) 3600000) 1000 * 1000.
Proof.
  unfold accruedOfMs, cdiv.
  change 1000%Q with (inject_Z 1000).
  rewrite Math_ceil_ratio. f_equal. f_equal. f_equal. f_equal.
  rewrite <- Math_ceil_ratio. apply Qceiling_comp.
  rewrite inject_Z_mult.
  change (inject_Z 3600000) with 3600000%Q.
  set (p := inject_Z (PRICE_PER_HOUR env)) in *. set (a := inject_Z diffMs). 
  field.
Qed.


End BillingFacts.

(** ** Billing: the accrued amount and the end of a cash order *)

Lemma accruedOfMs_multiple env (diffMs : Z) :
  exists k, accruedOfMs env diffMs = 1000 * k.
Proof.
  rewrite accruedOfMs_Z. eexists. rewrite Z.mul_comm. reflexivity.
Qed.

Lemma accruedOfMs_nonneg env (diffMs : Z) :
  0 < PRICE_PER_HOUR env -> 0 <= diffMs -> 0 <= accruedOfMs env diffMs.
Proof.
  intros HP Hd. rewrite accruedOfMs_Z.
  apply Z.mul_nonneg_nonneg; [|lia].
  apply cdiv_nonneg; [lia|]. apply cdiv_nonneg; [lia|]. nia.
Qed.

(** The accrued amount is the least multiple of 1000 that covers the exact
    cost [diffMs * PRICE_PER_HOUR / 3600000]. *)
Lemma accruedOfMs_least env (diffMs : Z) :
  let a := accruedOfMs env diffMs in
  3600000 * (a - 1000) < diffMs * PRICE_PER_HOUR env <= 3600000 * a.
Proof.
  cbv zeta. rewrite accruedOfMs_Z.
  rewrite cdiv_cdiv by lia.
  pose proof (cdiv_spec (diffMs * PRICE_PER_HOUR env) (3600000 * 1000)
                        ltac:(lia)).
  lia.
Qed.


Lemma cashDurationFromAmount_spec env (summa : Z) :
  cashDurationFromAmount env summa
  = Qfloor (inject_Z summa / inject_Z (PRICE_PER_HOUR env) * 3600000)%Q.
Proof.
  unfold cashDurationFromAmount, Math_floor. apply Qfloor_comp. ring.
Qed.

(** ** The collection: lookups after a [save] *)

Lemma find_map_same (p : Order -> bool) (u : Order -> Order) (l : list Order) :
  (forall x, In x l -> p (u x) = p x) ->
  find p (map u l) = option_map u (find p l).
Proof.
  induction l as [|d l IH]; intros H; simpl; [reflexivity|].
  rewrite (H d (or_introl eq_refl)).
  destruct (p d); [reflexivity|].
  apply IH. intros x Hx. apply H. now right.
Qed.

Lemma NoDup_map_eq {A B : Type} (f : A -> B) (l : list A) (a b : A) :
  NoDup (map f l) -> In a l -> In b l -> f a = f b -> a = b.
Proof.
  induction l as [|x l IH]; simpl; intros ND Ha Hb E; [contradiction|].
  inversion ND as [|? ? Hx ND']; subst.
  destruct Ha as [->|Ha], Hb as [->|Hb]; auto.
  - exfalso. apply Hx. rewrite E. now apply in_map.
  - exfalso. apply Hx. rewrite <- E. now apply in_map.
Qed.

Lemma ids_replace_doc (o : Order) (l : list Order) :
  map _id (map (replace_doc o) l) = map _id l.
Proof.
  rewrite map_map. apply map_ext. intros d. unfold replace_doc.
  destruct (String.eqb_spec (_id d) (_id o)) as [E|E]; [|reflexivity].
  simpl. now rewrite E.
Qed.

Lemma replace_doc_keys (coll : list Order) (o o' d : Order) :
  NoDup (map _id coll) -> In o coll -> In d coll -> same_keys o o' ->
  same_keys d (replace_doc o' d).
Proof.
  intros ND Ho Hd (K1 & K2 & K3). unfold replace_doc.
  destruct (String.eqb_spec (_id d) (_id o')) as [E|E].
  - assert (d = o) as ->.
    { apply (NoDup_map_eq _id coll); auto. congruence. }
    repeat split; simpl; assumption.
  - repeat split.
Qed.

(** [save] keeps the schema: a collection of valid documents with distinct
    [_id]s stays one. *)
Lemma save_keeps_schema (o : Order) (db db' : Db) :
  save o db = Some db' ->
  map _id (orders db') = map _id (orders db)
  /\ counter db' = counter db
  /\ (Forall (fun d => validate d = true) (orders db) ->
      Forall (fun d => validate d = true) (orders db')).
Proof.
  unfold save. destruct (validate o) eqn:V; [|discriminate].
  intros [= <-]. split; [apply ids_replace_doc|]. split; [reflexivity|].
  intros Hall. simpl. apply Forall_forall. intros d Hd.
  apply in_map_iff in Hd. destruct Hd as (x & <- & Hx).
  unfold replace_doc. destruct (String.eqb (_id x) (_id o)).
  - exact V.
  - revert x Hx. now apply Forall_forall.
Qed.

Lemma validate_type (o : Order) :
  validate o = true -> In (type o) type_enum /\ In (status o) status_enum.
Proof.
  unfold validate. intros H. apply andb_true_iff in H. destruct H as (Ht & Hs).
  apply existsb_exists in Ht, Hs.
  destruct Ht as (t & Hin & Et), Hs as (u & Hin' & Eu).
  apply String.eqb_eq in Et, Eu. subst. auto.
Qed.

Section Lookup.

Variable ObjectId_isValid : string -> bool.
Variable Number_ : string -> option Q.

Lemma findOrderByAnyId_In coll id o :
  findOrderByAnyId ObjectId_isValid Number_ coll id = Some o -> In o coll.
Proof.
  unfold findOrderByAnyId, findById, findOne_orderId, findOne_externalId.
  intros H.
  repeat match type of H with
         | context [if ?b then _ else _] => destruct b
         | context [match Number_ id with _ => _ end] =>
             destruct (Number_ id)
         | context [find ?p coll] =>
             let E := fresh "E" in
             destruct (find p coll) eqn:E;
             [injection H as <-; now apply find_some in E|]
         end; discriminate.
Qed.

(** A [save] that keeps the three keys of a stored document does not
    change which document an identifier resolves to. *)
Lemma findOrderByAnyId_replace coll o o' id :
  NoDup (map _id coll) -> In o coll -> same_keys o o' ->
  findOrderByAnyId ObjectId_isValid Number_ (map (replace_doc o') coll) id
  = option_map (replace_doc o')
               (findOrderByAnyId ObjectId_isValid Number_ coll id).
Proof.
  intros ND Ho K.
  assert (forall d, In d coll -> same_keys d (replace_doc o' d)) as HK.
  { intros d Hd. now apply (replace_doc_keys coll o). }
  unfold findOrderByAnyId, findById, findOne_orderId, findOne_externalId.
  assert (forall p : Order -> bool,
             (forall x, In x coll -> p (replace_doc o' x) = p x) ->
             find p (map (replace_doc o') coll)
             = option_map (replace_doc o') (find p coll)) as F
      by (intros p Hp; now apply find_map_same).
  destruct (ObjectId_isValid id), (Number_ id) as [n|];
    rewrite ?F;
    try (intros x Hx; destruct (HK x Hx) as (E1 & E2 & E3);
         rewrite ?E1, ?E2, ?E3; reflexivity);
    repeat match goal with
           | |- context [find ?p coll] => destruct (find p coll); simpl
           end; reflexivity.
Qed.

Lemma findOrderByAnyId_saved coll o o' id :
  NoDup (map _id coll) -> same_keys o o' ->
  findOrderByAnyId ObjectId_isValid Number_ coll id = Some o ->
  findOrderByAnyId ObjectId_isValid Number_ (map (replace_doc o') coll) id
  = Some (persisted o').
Proof.
  intros ND K H.
  rewrite (findOrderByAnyId_replace coll o o' id ND
             (findOrderByAnyId_In _ _ _ H) K), H.
  simpl. unfold replace_doc. destruct K as (K & _). rewrite K.
  now rewrite String.eqb_refl.
Qed.

End Lookup.

(** ** Complete *)

Lemma validate_enum (o : Order) :
  In (type o) type_enum -> In (status o) status_enum -> validate o = true.
Proof.
  intros Ht Hs. unfold validate. apply andb_true_iff. split.
  - apply existsb_exists. exists (type o). split; [assumption|].
    apply String.eqb_refl.
  - apply existsb_exists. exists (status o). split; [assumption|].
    apply String.eqb_refl.
Qed.

Lemma validate_mark_completed (at_ : Z) (o : Order) :
  In (type o) type_enum ->
  validate (set_completedAt (Some at_) (set_status "completed" o)) = true.
Proof.
  intros Ht. apply validate_enum; simpl; auto.
Qed.

Section Complete.

Variable env : option Z.
Variable ObjectId_isValid : string -> bool.
Variable Number_ : string -> option Q.

(** What the vip branch answers and stores. *)
Lemma post_complete_vip db id o now cn :
  findOrderByAnyId ObjectId_isValid Number_ (orders db) id = Some o ->
  type o = "vip"%string ->
  let a := accruedOfMs env (now - startTime o) in
  let o' := mark_completed cn (set_endTime (Some now) (set_summa a o)) in
  post_complete env ObjectId_isValid Number_ db id now cn
  = (Json (mkCompleteBody o' 0 a
             (Math_floor (inject_Z (now - startTime o) / 60000)%Q) 0),
     with_orders (map (replace_doc o') (orders db)) db).
Proof.
  intros H Ht a o'. unfold post_complete. rewrite H, Ht.
  change (String.eqb "vip" "vip") with true. cbv iota zeta.
  cbn [order qaytish oynaganSumma oynaganMinut qolganMinut].
  unfold save. rewrite validate_mark_completed; [reflexivity|].
  simpl. rewrite Ht. simpl. auto.
Qed.

(** What the cash branch answers and stores. *)
Lemma post_complete_cash db id o now cn :
  findOrderByAnyId ObjectId_isValid Number_ (orders db) id = Some o ->
  type o = "cash"%string ->
  let a := accruedOfMs env (now - startTime o) in
  let early := match endTime o with Some e => now <? e | None => false end in
  let o' := mark_completed cn
              (if early then set_endTime (Some now) (set_summa a o) else o) in
  post_complete env ObjectId_isValid Number_ db id now cn
  = (Json (mkCompleteBody o'
             (if early then summa o - a else 0) a
             (Math_floor (inject_Z (now - startTime o) / 60000)%Q)
             (match endTime o with
              | Some e => if now <? e
                          then Math_floor (inject_Z (e - now) / 60000)%Q else 0
              | None => 0
              end)),
     with_orders (map (replace_doc o') (orders db)) db).
Proof.
  intros H Ht a early o'. unfold post_complete. rewrite H, Ht.
  change (String.eqb "cash" "vip") with false.
  change (String.eqb "cash" "cash") with true. cbv iota zeta.
  assert (forall x, type x = "cash"%string ->
                    validate (set_completedAt (Some cn)
                                (set_status "completed" x)) = true) as V.
  { intros x Hx. apply validate_mark_completed. rewrite Hx. simpl. auto. }
  subst o' early a. unfold save.
  destruct (endTime o) as [e|]; [destruct (now <? e)|];
    cbn [order qaytish oynaganSumma oynaganMinut qolganMinut];
    rewrite V by exact Ht; reflexivity.
Qed.

Lemma accruedOfMs_spec (diffMs : Z) :
  accruedOfMs env diffMs
  = Qceiling (inject_Z (Qceiling (inject_Z diffMs / 3600000
                                  * inject_Z (PRICE_PER_HOUR env)))
              / 1000) * 1000.
Proof.
  unfold accruedOfMs, Math_ceil.
  change (3600 * 1000)%Q with 3600000%Q. reflexivity.
Qed.

Lemma saved_In db id o o' :
  findOrderByAnyId ObjectId_isValid Number_ (orders db) id = Some o ->
  _id o' = _id o ->
  In (persisted o') (map (replace_doc o') (orders db)).
Proof.
  intros H E. apply findOrderByAnyId_In in H.
  apply in_map_iff. exists o. split; [|assumption].
  unfold replace_doc. rewrite E. now rewrite String.eqb_refl.
Qed.

(** C3 (amended): for a positive price per hour, the vip accrued amount is a
    multiple of 1000 for every startTime and now, and it is non-negative
    when startTime is not after now.  It is the amount a completed vip order
    answers and stores in summa, and the provisional summa of the daily
    report overlay. *)
Theorem vip_accrued_multiple_of_1000 (startTime_ now : Z) :
  0 < PRICE_PER_HOUR env ->
  (exists k, vipAccruedAmount env startTime_ now = 1000 * k)
  /\ (startTime_ <= now -> 0 <= vipAccruedAmount env startTime_ now)
  /\ (forall db id o cn,
         findOrderByAnyId ObjectId_isValid Number_ (orders db) id = Some o ->
         type o = "vip"%string -> startTime o = startTime_ ->
         exists b db',
           post_complete env ObjectId_isValid Number_ db id now cn
           = (Json b, db')
           /\ summa (order b) = vipAccruedAmount env startTime_ now
           /\ In (persisted (order b)) (orders db'))
  /\ (forall o,
         status o = "process"%string -> type o = "vip"%string ->
         startTime o = startTime_ ->
         report_overlay env now o
         = (set_summa (vipAccruedAmount env startTime_ now) o, true)).
Proof.
  intros HP. unfold vipAccruedAmount. repeat split.
  - apply accruedOfMs_multiple.
  - intros Hle. apply accruedOfMs_nonneg; [assumption|lia].
  - intros db id o cn H Ht Hs.
    rewrite (post_complete_vip db id o now cn H Ht). rewrite <- Hs.
    eexists. eexists. split; [reflexivity|]. split; [reflexivity|].
    simpl orders. simpl order. now apply (saved_In db id o).
  - intros o Hst Ht Hs. unfold report_overlay. rewrite Hst, Ht, Hs.
    reflexivity.
Qed.


(** C1 (amended): a second Complete of a cash order, at an instant that is
    not before the first one, leaves summa and endTime as the first call
    left them.  The handler has no guard on status: on a vip order the
    second call, like the first, sets endTime to its own instant and summa
    to the amount accrued up to it. *)
Theorem complete_twice db id o now1 cn1 now2 cn2 :
  NoDup (map _id (orders db)) ->
  findOrderByAnyId ObjectId_isValid Number_ (orders db) id = Some o ->
  In (type o) type_enum ->
  now1 <= now2 ->
  exists b1 db1 b2 db2,
    post_complete env ObjectId_isValid Number_ db id now1 cn1 = (Json b1, db1)
    /\ status (order b1) = "completed"%string
    /\ findOrderByAnyId ObjectId_isValid Number_ (orders db1) id
       = Some (persisted (order b1))
    /\ post_complete env ObjectId_isValid Number_ db1 id now2 cn2
       = (Json b2, db2)
    /\ findOrderByAnyId ObjectId_isValid Number_ (orders db2) id
       = Some (persisted (order b2))
    /\ (type o = "cash"%string ->
        summa (order b2) = summa (order b1)
        /\ endTime (order b2) = endTime (order b1))
    /\ (type o = "vip"%string ->
        summa (order b2) = vipAccruedAmount env (startTime o) now2
        /\ endTime (order b2) = Some now2).
Proof.
  intros ND H Hty Hle.
  assert (forall o1, same_keys o o1 ->
            findOrderByAnyId ObjectId_isValid Number_
              (map (replace_doc o1) (orders db)) id = Some (persisted o1)
            /\ NoDup (map _id (map (replace_doc o1) (orders db)))) as Step.
  { intros o1 K. split.
    - now apply (findOrderByAnyId_saved _ _ (orders db) o).
    - now rewrite ids_replace_doc. }
  assert (forall coll o1 o2, NoDup (map _id coll) ->
            findOrderByAnyId ObjectId_isValid Number_ coll id = Some o1 ->
            same_keys o1 o2 ->
            findOrderByAnyId ObjectId_isValid Number_
              (map (replace_doc o2) coll) id = Some (persisted o2)) as Step2.
  { intros coll o1 o2 ND' H' K. now apply (findOrderByAnyId_saved _ _ coll o1). }
  destruct Hty as [Hc|[Hv|[]]]; symmetry in Hc || symmetry in Hv.
  - (* cash *)
    pose proof (post_complete_cash db id o now1 cn1 H Hc) as E1.
    cbv zeta in E1.
    set (a1 := accruedOfMs env (now1 - startTime o)) in *.
    set (early := match endTime o with
                  | Some e => now1 <? e | None => false end) in *.
    set (o1 := mark_completed cn1
                 (if early then set_endTime (Some now1) (set_summa a1 o)
                  else o)) in *.
    assert (same_keys o o1) as K1
        by (subst o1; destruct early; repeat split).
    destruct (Step o1 K1) as (L1 & ND1).
    assert (type (persisted o1) = "cash"%string) as Hc1
        by (subst o1; destruct early; exact Hc).
    assert (match endTime (persisted o1) with
            | Some e => now2 <? e | None => false end = false) as Hlate.
    { subst o1 early. destruct (endTime o) as [e|] eqn:He; simpl.
      - destruct (now1 <? e) eqn:Hlt; simpl.
        + apply Z.ltb_ge. lia.
        + rewrite He. apply Z.ltb_ge. apply Z.ltb_ge in Hlt. lia.
      - rewrite He. reflexivity. }
    pose proof (post_complete_cash
                  (with_orders (map (replace_doc o1) (orders db)) db)
                  id (persisted o1) now2 cn2 L1 Hc1) as E2.
    cbv zeta in E2. rewrite Hlate in E2.
    do 4 eexists. split; [exact E1|]. split; [reflexivity|].
    split; [exact L1|]. split; [exact E2|].
    split; [|split].
    + simpl order. simpl orders.
      apply (Step2 _ (persisted o1)); [exact ND1|exact L1|repeat split].
    + intros _. split; reflexivity.
    + intros Hv. rewrite Hv in Hc. discriminate.
  - (* vip *)
    pose proof (post_complete_vip db id o now1 cn1 H Hv) as E1.
    cbv zeta in E1.
    set (o1 := mark_completed cn1
                 (set_endTime (Some now1)
                    (set_summa (accruedOfMs env (now1 - startTime o)) o)))
      in *.
    assert (same_keys o o1) as K1 by (repeat split).
    destruct (Step o1 K1) as (L1 & ND1).
    pose proof (post_complete_vip
                  (with_orders (map (replace_doc o1) (orders db)) db)
                  id (persisted o1) now2 cn2 L1 Hv) as E2.
    cbv zeta in E2.
    do 4 eexists. split; [exact E1|]. split; [reflexivity|].
    split; [exact L1|]. split; [exact E2|].
    split; [|split].
    + simpl order. simpl orders.
      apply (Step2 _ (persisted o1)); [exact ND1|exact L1|repeat split].
    + intros Hc. rewrite Hc in Hv. discriminate.
    + intros _. split; reflexivity.
Qed.

End Complete.

Lemma vip_accrued_multiple_of_1000_witness :
  0 < PRICE_PER_HOUR None
  /\ (exists k, vipAccruedAmount None 0 5700000 = 1000 * k)
  /\ 0 <= vipAccruedAmount None 0 5700000.
Proof.
  assert (0 < PRICE_PER_HOUR None) as HP by reflexivity.
  destruct (vip_accrued_multiple_of_1000 None Sample.isValid Sample.Number_
              0 5700000 HP) as (M & N & _).
  split; [exact HP|]. split; [exact M|]. apply N. lia.
Defined.

(** C3, as stated, fails when startTime is after now: at 15000 per hour an
    order that starts two hours from now accrues -30000, and a vip order
    created with that startTime and completed at once stores it. *)
Lemma vip_accrued_negative :
  0 < PRICE_PER_HOUR None
  /\ vipAccruedAmount None 7200000 0 = -30000
  /\ ~ 0 <= vipAccruedAmount None 7200000 0
  /\ (let created :=
        post_order None Sample.empty (Sample.body "vip" None (Some 7200000))
                   0 0 "aaaaaaaaaaaaaaaaaaaaaaa1" "x1" in
      let done :=
        post_complete None Sample.isValid Sample.Number_ (snd created)
                      "1" 0 0 in
      option_map (fun b => summa (order b)) (Sample.answer done)
      = Some (-30000)
      /\ map summa (orders (snd done)) = [-30000]).
Proof.
  split; [reflexivity|]. split; [vm_compute; reflexivity|].
  split; [vm_compute; intros H; apply H; reflexivity|].
  vm_compute. split; reflexivity.
Qed.



Lemma complete_twice_witness :
  NoDup (map _id (orders Sample.db3))
  /\ findOrderByAnyId Sample.isValid Sample.Number_ (orders Sample.db3) "2"
     = Some Sample.cash2
  /\ In (type Sample.cash2) type_enum
  /\ 1800000 <= 3600000
  /\ exists b1 db1 b2 db2,
       post_complete None Sample.isValid Sample.Number_ Sample.db3 "2"
                     1800000 1800001 = (Json b1, db1)
       /\ post_complete None Sample.isValid Sample.Number_ db1 "2"
                        3600000 3600001 = (Json b2, db2)
       /\ summa (order b2) = summa (order b1)
       /\ endTime (order b2) = endTime (order b1).
Proof.
  assert (NoDup (map _id (orders Sample.db3))) as ND.
  { simpl. repeat constructor; simpl; intuition discriminate. }
  assert (findOrderByAnyId Sample.isValid Sample.Number_
            (orders Sample.db3) "2" = Some Sample.cash2) as H
      by reflexivity.
  assert (In (type Sample.cash2) type_enum) as Hty by (simpl; auto).
  assert (1800000 <= 3600000) as Hle by lia.
  split; [exact ND|]. split; [exact H|]. split; [exact Hty|].
  split; [exact Hle|].
  destruct (complete_twice None Sample.isValid Sample.Number_ Sample.db3 "2"
              Sample.cash2 1800000 1800001 3600000 3600001 ND H Hty Hle)
    as (b1 & db1 & b2 & db2 & E1 & _ & _ & E2 & _ & Hcash & _).
  exists b1, db1, b2, db2. split; [exact E1|]. split; [exact E2|].
  exact (Hcash eq_refl).
Defined.

(** C1, as stated, fails on a vip order: a first Complete one hour after the
    start leaves it completed with summa 15000 and endTime at that instant;
    a second Complete an hour later answers, and stores, summa 30000 and the
    later endTime. *)
Lemma complete_twice_vip_changes :
  let first :=
    post_complete None Sample.isValid Sample.Number_ Sample.db3 "1"
                  3600000 3600000 in
  let second :=
    post_complete None Sample.isValid Sample.Number_ (snd first) "1"
                  7200000 7200000 in
  let view := fun b : CompleteBody =>
                (status (order b), summa (order b), endTime (order b)) in
  option_map view (Sample.answer first)
  = Some ("completed"%string, 15000, Some 3600000)
  /\ option_map view (Sample.answer second)
     = Some ("completed"%string, 30000, Some 7200000)
  /\ map (fun o => (status o, summa o, endTime o)) (orders (snd second))
     = [("completed"%string, 30000, Some 7200000);
        ("process"%string, 0, None);
        ("process"%string, 30000, Some 7200000)]
  /\ ~ (option_map (fun b => (summa (order b), endTime (order b)))
                   (Sample.answer second)
        = option_map (fun b => (summa (order b), endTime (order b)))
                     (Sample.answer first)).
Proof.
  vm_compute. repeat split; try reflexivity. discriminate.
Qed.

(** ** Create *)




(** ** Edit *)

Lemma assign_fields_type body o :
  type (assign_fields body o) = type_after body o.
Proof.
  unfold assign_fields, type_after.
  destruct (truthy (body_ps body)), (truthy (body_type body)),
    (body_startTime body); reflexivity.
Qed.

Lemma assign_fields_frame body o :
  summa (assign_fields body o) = summa o
  /\ status (assign_fields body o) = status o
  /\ endTime (assign_fields body o) = endTime o
  /\ same_keys o (assign_fields body o).
Proof.
  unfold assign_fields.
  destruct (truthy (body_ps body)), (truthy (body_type body)),
    (body_startTime body); repeat split.
Qed.

Section Edit.

Variable env : option Z.
Variable ObjectId_isValid : string -> bool.
Variable Number_ : string -> option Q.

(** An edit that is not answered with the order has saved nothing. *)
Lemma put_order_error_frame db id body code db' :
  put_order env ObjectId_isValid Number_ db id body = (Status code, db') ->
  db' = db.
Proof.
  unfold put_order.
  destruct (findOrderByAnyId _ _ _ _) as [o|]; [|now intros [= _ <-]].
  destruct (match body_amount body with
            | Some a => edit_amount env a (assign_fields body o)
            | None => inr (assign_fields body o)
            end) as [c|o1]; [now intros [= _ <-]|].
  destruct (save _ db); [discriminate|now intros [= _ <-]].
Qed.

(** The two refusals of the amount block come before [save]. *)
Lemma put_order_refused db id body o newAmount :
  findOrderByAnyId ObjectId_isValid Number_ (orders db) id = Some o ->
  body_amount body = Some newAmount ->
  (type_after body o = "vip"%string /\ summa o < newAmount)
  \/ (type_after body o = "cash"%string /\ newAmount <= 0) ->
  put_order env ObjectId_isValid Number_ db id body = (Status 400, db).
Proof.
  intros H Ha Hrej. unfold put_order. rewrite H, Ha.
  destruct (assign_fields_frame body o) as (Hs & _).
  unfold edit_amount. rewrite assign_fields_type, Hs.
  destruct Hrej as [(Ht & Hlt)|(Ht & Hle)]; rewrite Ht.
  - change (String.eqb "vip" "vip") with true.
    apply Z.ltb_lt in Hlt. rewrite Hlt. reflexivity.
  - change (String.eqb "cash" "vip") with false.
    change (String.eqb "cash" "cash") with true.
    apply Z.leb_le in Hle. rewrite Hle. reflexivity.
Qed.

(** C10: an edit whose amount is refused -- the document is vip once the
    type of the request is applied and the amount exceeds summa, or it is
    cash and the amount is not positive -- is answered with 400 and leaves
    the database as it was: no field of the request is saved, and the
    stored order is the one the identifier resolved to before. *)
Theorem put_order_rejected_unchanged db id body o newAmount :
  findOrderByAnyId ObjectId_isValid Number_ (orders db) id = Some o ->
  body_amount body = Some newAmount ->
  (type_after body o = "vip"%string /\ summa o < newAmount)
  \/ (type_after body o = "cash"%string /\ newAmount <= 0) ->
  exists db',
    put_order env ObjectId_isValid Number_ db id body = (Status 400, db')
    /\ db' = db
    /\ findOrderByAnyId ObjectId_isValid Number_ (orders db') id = Some o.
Proof.
  intros H Ha Hrej. exists db.
  split; [now apply (put_order_refused db id body o newAmount)|].
  split; [reflexivity|exact H].
Qed.


End Edit.

Lemma put_order_rejected_unchanged_witness :
  findOrderByAnyId Sample.isValid Sample.Number_ (orders Sample.db3) "1"
  = Some Sample.vip1
  /\ body_amount (mkBody (Some "PS9"%string) None (Some 5000) (Some 60000) None)
     = Some 5000
  /\ (type_after (mkBody (Some "PS9"%string) None (Some 5000) (Some 60000) None)
                 Sample.vip1 = "vip"%string
      /\ summa Sample.vip1 < 5000)
  /\ put_order None Sample.isValid Sample.Number_ Sample.db3 "1"
               (mkBody (Some "PS9"%string) None (Some 5000) (Some 60000) None)
     = (Status 400, Sample.db3).
Proof.
  assert (type_after
            (mkBody (Some "PS9"%string) None (Some 5000) (Some 60000) None)
            Sample.vip1 = "vip"%string
          /\ summa Sample.vip1 < 5000) as Hrej
      by (split; [reflexivity|simpl; lia]).
  split; [reflexivity|]. split; [reflexivity|]. split; [exact Hrej|].
  destruct (put_order_rejected_unchanged None Sample.isValid Sample.Number_
              Sample.db3 "1"
              (mkBody (Some "PS9"%string) None (Some 5000) (Some 60000) None)
              Sample.vip1 5000 eq_refl eq_refl (or_introl Hrej))
    as (db' & E & -> & _).
  exact E.
Defined.



(** ** Lookup *)

Section LookupOrder.

Variable ObjectId_isValid : string -> bool.
Variable Number_ : string -> option Q.

(** C5: the identifier is resolved by primary key first, then by numeric
    orderId, then by externalId, and the first strategy that finds a
    document decides; the answer is a document that matches one of the three
    keys, and it is not-found only when no document matches any.  When the
    externalId of one order reads as the orderId of another and the
    identifier is no primary key, the order with that orderId is returned. *)
Theorem findOrderByAnyId_precedence (coll : list Order) (id : string) :
  (forall o, ObjectId_isValid id = true -> findById coll id = Some o ->
             findOrderByAnyId ObjectId_isValid Number_ coll id = Some o)
  /\ (forall n o,
         ObjectId_isValid id = false \/ findById coll id = None ->
         Number_ id = Some n -> findOne_orderId coll n = Some o ->
         findOrderByAnyId ObjectId_isValid Number_ coll id = Some o)
  /\ (ObjectId_isValid id = false \/ findById coll id = None ->
      Number_ id = None
      \/ (exists n, Number_ id = Some n /\ findOne_orderId coll n = None) ->
      findOrderByAnyId ObjectId_isValid Number_ coll id
      = findOne_externalId coll id)
  /\ (forall o,
         findOrderByAnyId ObjectId_isValid Number_ coll id = Some o ->
         In o coll
         /\ ((ObjectId_isValid id = true /\ _id o = id)
             \/ (exists n, Number_ id = Some n
                           /\ (inject_Z (orderId o) == n)%Q)
             \/ externalId o = id))
  /\ (findOrderByAnyId ObjectId_isValid Number_ coll id = None ->
      forall o, In o coll ->
                ~ (ObjectId_isValid id = true /\ _id o = id)
                /\ ~ (exists n, Number_ id = Some n
                                /\ (inject_Z (orderId o) == n)%Q)
                /\ externalId o <> id)
  /\ (forall a b n,
         NoDup (map orderId coll) -> In a coll -> In b coll -> a <> b ->
         externalId a = id -> Number_ id = Some n ->
         (inject_Z (orderId b) == n)%Q ->
         ObjectId_isValid id = false \/ findById coll id = None ->
         findOrderByAnyId ObjectId_isValid Number_ coll id = Some b).
Proof.
  assert (forall n o,
             ObjectId_isValid id = false \/ findById coll id = None ->
             Number_ id = Some n -> findOne_orderId coll n = Some o ->
             findOrderByAnyId ObjectId_isValid Number_ coll id = Some o) as P2.
  { intros n o Hpk Hn Ho. unfold findOrderByAnyId. rewrite Hn, Ho.
    destruct Hpk as [-> | ->]; [reflexivity|].
    destruct (ObjectId_isValid id); reflexivity. }
  split; [|split; [exact P2|split; [|split; [|split]]]].
  - intros o Hv Ho. unfold findOrderByAnyId. now rewrite Hv, Ho.
  - intros Hpk Hnum. unfold findOrderByAnyId.
    assert ((if ObjectId_isValid id then findById coll id else None) = None)
      as -> by (destruct Hpk as [-> | ->];
                [reflexivity|destruct (ObjectId_isValid id); reflexivity]).
    destruct Hnum as [-> | (n & -> & ->)];
      destruct (findOne_externalId coll id); reflexivity.
  - intros o H. split; [now apply findOrderByAnyId_In in H|].
    unfold findOrderByAnyId, findById, findOne_orderId, findOne_externalId
      in H.
    destruct (ObjectId_isValid id) eqn:Hv.
    + destruct (find _ coll) as [x|] eqn:E1.
      * injection H as <-. apply find_some in E1. destruct E1 as (_ & E1).
        left. split; [reflexivity|]. now apply String.eqb_eq.
      * right. destruct (Number_ id) as [n|].
        -- destruct (find (fun o => Qeq_bool _ n) coll) as [y|] eqn:E2.
           ++ injection H as <-. apply find_some in E2.
              left. exists n. split; [reflexivity|].
              now apply Qeq_bool_iff.
           ++ destruct (find (fun o => String.eqb (externalId o) id) coll)
                as [z|] eqn:E3; [|discriminate].
              injection H as <-. apply find_some in E3. right.
              now apply String.eqb_eq.
        -- destruct (find (fun o => String.eqb (externalId o) id) coll)
             as [z|] eqn:E3; [|discriminate].
           injection H as <-. apply find_some in E3. right.
           now apply String.eqb_eq.
    + right. destruct (Number_ id) as [n|].
      * destruct (find (fun o => Qeq_bool _ n) coll) as [y|] eqn:E2.
        -- injection H as <-. apply find_some in E2.
           left. exists n. split; [reflexivity|]. now apply Qeq_bool_iff.
        -- destruct (find (fun o => String.eqb (externalId o) id) coll)
             as [z|] eqn:E3; [|discriminate].
           injection H as <-. apply find_some in E3. right.
           now apply String.eqb_eq.
      * destruct (find (fun o => String.eqb (externalId o) id) coll)
          as [z|] eqn:E3; [|discriminate].
        injection H as <-. apply find_some in E3. right.
        now apply String.eqb_eq.
  - intros H o Ho.
    unfold findOrderByAnyId, findById, findOne_orderId, findOne_externalId
      in H.
    assert (find (fun o => String.eqb (externalId o) id) coll = None) as E3.
    { destruct (find (fun o => String.eqb (externalId o) id) coll);
        [|reflexivity].
      destruct (ObjectId_isValid id);
        [destruct (find (fun o => String.eqb (_id o) id) coll);
         [discriminate|]|];
        (destruct (Number_ id);
         [destruct (find (fun o => Qeq_bool _ _) coll)|]; discriminate). }
    rewrite E3 in H. repeat split.
    + intros (Hv & Hid). rewrite Hv in H.
      destruct (find (fun o => String.eqb (_id o) id) coll) eqn:E1;
        [discriminate|].
      apply (find_none _ _ E1) in Ho. simpl in Ho.
      apply String.eqb_neq in Ho. contradiction.
    + intros (n & Hn & Hq). rewrite Hn in H.
      destruct (find (fun o => Qeq_bool _ n) coll) eqn:E2.
      * destruct (ObjectId_isValid id);
          [destruct (find (fun o => String.eqb (_id o) id) coll)|];
          discriminate.
      * apply (find_none _ _ E2) in Ho. simpl in Ho.
        apply Qeq_bool_iff in Hq. congruence.
    + apply (find_none _ _ E3) in Ho. simpl in Ho.
      now apply String.eqb_neq in Ho.
  - intros a b n ND Ha Hb Hab Hext Hn Hq Hpk.
    destruct (findOne_orderId coll n) as [o|] eqn:E.
    + assert (o = b) as ->; [|now apply (P2 n b)].
      unfold findOne_orderId in E. apply find_some in E.
      destruct E as (Ho & Hm). apply Qeq_bool_iff in Hm.
      apply (NoDup_map_eq orderId coll); auto.
      apply inject_Z_injective. now rewrite Hm, Hq.
    + unfold findOne_orderId in E. apply (find_none _ _ E) in Hb.
      simpl in Hb. apply Qeq_bool_iff in Hq. congruence.
Qed.

End LookupOrder.

Lemma findOrderByAnyId_precedence_witness :
  findOrderByAnyId Sample.isValid Sample.Number_ (orders Sample.db3) "2"
  = Some Sample.cash2
  /\ externalId Sample.ext3 = "2"%string
  /\ Sample.ext3 <> Sample.cash2.
Proof.
  assert (Sample.ext3 <> Sample.cash2) as Hne by discriminate.
  split; [|split; [reflexivity|exact Hne]].
  destruct (findOrderByAnyId_precedence Sample.isValid Sample.Number_
              (orders Sample.db3) "2") as (_ & _ & _ & _ & _ & P).
  apply (P Sample.ext3 Sample.cash2 (inject_Z 2)).
  - simpl. repeat constructor; simpl; intuition discriminate.
  - simpl. auto.
  - simpl. auto.
  - exact Hne.
  - reflexivity.
  - reflexivity.
  - reflexivity.
  - left. reflexivity.
Defined.

(** ** The auto-complete sweep *)

Lemma findById_self (coll : list Order) (o : Order) :
  NoDup (map _id coll) -> In o coll -> findById coll (_id o) = Some o.
Proof.
  intros ND Ho. unfold findById.
  destruct (find (fun x => String.eqb (_id x) (_id o)) coll) as [x|] eqn:E.
  - apply find_some in E. destruct E as (Hx & E).
    apply String.eqb_eq in E. f_equal.
    now apply (NoDup_map_eq _id coll).
  - apply (find_none _ _ E) in Ho. simpl in Ho.
    now rewrite String.eqb_refl in Ho.
Qed.

Section Sweep.

Variable now : Z.

Lemma autoComplete_loop_orders (found : list Order) (db : Db) :
  (forall o, In o found -> type o = "cash"%string) ->
  orders (autoComplete_loop now found db) = map (sweep_saves now found) (orders db)
  /\ counter (autoComplete_loop now found db) = counter db.
Proof.
  revert db. induction found as [|o rest IH]; intros db Hc.
  - simpl. split; [|reflexivity]. symmetry. unfold sweep_saves.
    simpl. apply map_id.
  - cbn [autoComplete_loop]. unfold save.
    rewrite validate_mark_completed
      by (rewrite (Hc o (or_introl eq_refl)); simpl; auto).
    destruct (IH (with_orders
                    (map (replace_doc (mark_completed now o)) (orders db)) db)
                 (fun x Hx => Hc x (or_intror Hx))) as (IH1 & IH2).
    fold (mark_completed now o). rewrite IH1, IH2. split; [|reflexivity].
    simpl orders. rewrite map_map. reflexivity.
Qed.

Lemma saves_other (found : list Order) (d : Order) :
  (forall o, In o found -> _id o <> _id d) -> sweep_saves now found d = d.
Proof.
  unfold sweep_saves. induction found as [|o rest IH]; intros H; simpl;
    [reflexivity|].
  unfold replace_doc at 2. simpl _id.
  destruct (String.eqb_spec (_id d) (_id o)) as [E|E].
  - exfalso. apply (H o (or_introl eq_refl)). now symmetry.
  - apply IH. intros x Hx. apply H. now right.
Qed.

Lemma saves_found (found : list Order) (d : Order) :
  NoDup (map _id found) -> In d found ->
  sweep_saves now found d = persisted (mark_completed now d).
Proof.
  induction found as [|o rest IH]; intros ND Hd; [contradiction|].
  simpl in ND. inversion ND as [|? ? Hnot ND']; subst.
  change (sweep_saves now (o :: rest) d)
    with (sweep_saves now rest (replace_doc (mark_completed now o) d)).
  destruct Hd as [->|Hd].
  - unfold replace_doc. simpl _id. rewrite String.eqb_refl.
    apply saves_other. intros x Hx E. apply Hnot.
    simpl in E. rewrite <- E. now apply in_map.
  - unfold replace_doc. simpl _id.
    destruct (String.eqb_spec (_id d) (_id o)) as [E|E].
    + exfalso. apply Hnot. rewrite <- E. now apply in_map.
    + now apply IH.
Qed.

(** The documents a query returns have distinct [_id]s, like the
    collection. *)
Lemma expired_ids_distinct (coll : list Order) :
  NoDup (map _id coll) -> NoDup (map _id (filter (expired now) coll)).
Proof.
  induction coll as [|d coll IH]; intros ND; [constructor|].
  cbn [map] in ND. apply NoDup_cons_iff in ND. destruct ND as (Hd & ND).
  cbn [filter]. destruct (expired now d); [|now apply IH].
  cbn [map]. apply NoDup_cons; [|now apply IH].
  intros Hin. apply Hd. apply in_map_iff in Hin.
  destruct Hin as (y & E & Hy). apply filter_In in Hy.
  rewrite <- E. apply in_map. tauto.
Qed.

Lemma autoComplete_orders (db : Db) :
  NoDup (map _id (orders db)) ->
  orders (autoComplete db now)
  = map (fun o => if expired now o
                  then persisted (mark_completed now o) else o)
        (orders db).
Proof.
  intros ND. unfold autoComplete.
  destruct (autoComplete_loop_orders (filter (expired now) (orders db)) db)
    as (E & _).
  { intros o Ho. apply filter_In in Ho. destruct Ho as (_ & Ho).
    unfold expired in Ho. apply andb_true_iff in Ho. destruct Ho as (Ho & _).
    apply andb_true_iff in Ho. destruct Ho as (_ & Ho).
    now apply String.eqb_eq. }
  rewrite E. apply map_ext_in. intros d Hd.
  destruct (expired now d) eqn:Hex.
  - apply saves_found.
    + now apply expired_ids_distinct.
    + apply filter_In. auto.
  - apply saves_other. intros o Ho E'. apply filter_In in Ho.
    destruct Ho as (Ho & Hexo).
    assert (o = d) as -> by (now apply (NoDup_map_eq _id (orders db))).
    congruence.
Qed.

(** C7: a run of the sweep, on a collection with distinct [_id]s, turns
    every matched order (status process, type cash, endTime <= now) into the
    same order with status completed and completedAt now: summa, endTime and
    every other field are as before; orders that are not matched are left
    as they are. *)
Theorem autoComplete_frame (db : Db) (o : Order) :
  NoDup (map _id (orders db)) ->
  In o (orders db) ->
  (expired now o = true ->
   status o = "process"%string /\ type o = "cash"%string
   /\ (exists e, endTime o = Some e /\ e <= now)
   /\ exists o',
       findById (orders (autoComplete db now)) (_id o) = Some o'
       /\ status o' = "completed"%string /\ completedAt o' = Some now
       /\ summa o' = summa o /\ endTime o' = endTime o
       /\ _id o' = _id o /\ orderId o' = orderId o
       /\ externalId o' = externalId o /\ ps o' = ps o /\ type o' = type o
       /\ startTime o' = startTime o /\ createdAt o' = createdAt o
       /\ deletedAt o' = deletedAt o)
  /\ (expired now o = false ->
      findById (orders (autoComplete db now)) (_id o) = Some o).
Proof.
  intros ND Ho.
  assert (findById (orders (autoComplete db now)) (_id o)
          = Some (if expired now o
                  then persisted (mark_completed now o) else o)) as F.
  { rewrite (autoComplete_orders db ND). unfold findById.
    rewrite find_map_same.
    - fold (findById (orders db) (_id o)).
      now rewrite (findById_self (orders db) o ND Ho).
    - intros x _. destruct (expired now x); reflexivity. }
  split; intros Hex; rewrite Hex in F; [|exact F].
  unfold expired in Hex.
  apply andb_true_iff in Hex. destruct Hex as (Hex & He).
  apply andb_true_iff in Hex. destruct Hex as (Hs & Ht).
  apply String.eqb_eq in Hs, Ht.
  split; [exact Hs|]. split; [exact Ht|]. split.
  - destruct (endTime o) as [e|]; [|discriminate].
    exists e. split; [reflexivity|]. now apply Z.leb_le.
  - eexists. split; [exact F|]. repeat split.
Qed.

End Sweep.

Lemma autoComplete_frame_witness :
  NoDup (map _id (orders Sample.db3))
  /\ In Sample.cash2 (orders Sample.db3)
  /\ expired 7200000 Sample.cash2 = true
  /\ exists o',
       findById (orders (autoComplete Sample.db3 7200000))
                (_id Sample.cash2) = Some o'
       /\ status o' = "completed"%string /\ completedAt o' = Some 7200000
       /\ summa o' = 30000 /\ endTime o' = Some 7200000.
Proof.
  assert (NoDup (map _id (orders Sample.db3))) as ND.
  { simpl. repeat constructor; simpl; intuition discriminate. }
  assert (In Sample.cash2 (orders Sample.db3)) as Hin by (simpl; auto).
  split; [exact ND|]. split; [exact Hin|]. split; [reflexivity|].
  destruct (autoComplete_frame 7200000 Sample.db3 Sample.cash2 ND Hin)
    as (Hm & _).
  destruct (Hm eq_refl)
    as (_ & _ & _ & o' & F & Hs & Hc & Hsum & Hend & _).
  exists o'. repeat split; assumption.
Defined.

(** ** Soft delete and restore *)

Section Restore.

Variable ObjectId_isValid : string -> bool.
Variable Number_ : string -> option Q.

(** The soft path of the generic delete: the order goes to trash and the
    loaded document remembers the status it had. *)
Lemma delete_order_soft db id o superKey now :
  findOrderByAnyId ObjectId_isValid Number_ (orders db) id = Some o ->
  In (type o) type_enum ->
  let o' := set_deletedAt (Some now)
              (set_status "trash" (set_prevStatus (Some (status o)) o)) in
  delete_order ObjectId_isValid Number_ db id false superKey now
  = (Json (Some o'), with_orders (map (replace_doc o') (orders db)) db).
Proof.
  intros H Ht o'. unfold delete_order. rewrite H. cbv iota zeta.
  assert ((if String.eqb (status o) "process"
           then "process"%string else status o) = status o) as ->.
  { destruct (String.eqb_spec (status o) "process") as [E|E]; congruence. }
  unfold save. fold o'.
  rewrite validate_enum; [reflexivity|exact Ht|simpl; auto].
Qed.

(** C8: Restore of an order that is not in trash is answered with 400 and
    the database is left as it was.  Restore of an order in trash answers
    and stores the order with status completed, completedAt now, deletedAt
    null and no prevStatus, every other field as before; so an order of any
    status that is soft-deleted and then restored ends as completed. *)
Theorem post_restore_spec db id o now :
  findOrderByAnyId ObjectId_isValid Number_ (orders db) id = Some o ->
  (status o <> "trash"%string ->
   post_restore ObjectId_isValid Number_ db id now = (Status 400, db))
  /\ (status o = "trash"%string -> In (type o) type_enum ->
      exists o' db',
        post_restore ObjectId_isValid Number_ db id now = (Json o', db')
        /\ status o' = "completed"%string /\ completedAt o' = Some now
        /\ deletedAt o' = None /\ prevStatus o' = None
        /\ summa o' = summa o /\ endTime o' = endTime o
        /\ startTime o' = startTime o /\ ps o' = ps o /\ type o' = type o
        /\ createdAt o' = createdAt o /\ same_keys o o'
        /\ orders db' = map (replace_doc o') (orders db)
        /\ In o' (orders db'))
  /\ (forall deletedNow,
         NoDup (map _id (orders db)) -> In (type o) type_enum ->
         exists trashed db1 restored db2,
           delete_order ObjectId_isValid Number_ db id false false deletedNow
           = (Json (Some trashed), db1)
           /\ status trashed = "trash"%string
           /\ prevStatus trashed = Some (status o)
           /\ post_restore ObjectId_isValid Number_ db1 id now
              = (Json restored, db2)
           /\ status restored = "completed"%string
           /\ completedAt restored = Some now
           /\ deletedAt restored = None /\ prevStatus restored = None
           /\ findOrderByAnyId ObjectId_isValid Number_ (orders db2) id
              = Some restored).
Proof.
  intros H.
  assert (forall db0 x,
             findOrderByAnyId ObjectId_isValid Number_ (orders db0) id
             = Some x ->
             status x = "trash"%string -> In (type x) type_enum ->
             let x' := set_prevStatus None
                         (set_deletedAt None
                            (set_completedAt (Some now)
                               (set_status "completed" x))) in
             post_restore ObjectId_isValid Number_ db0 id now
             = (Json x', with_orders (map (replace_doc x') (orders db0)) db0))
    as Ok.
  { intros db0 x Hx Hs Ht x'. unfold post_restore. rewrite Hx, Hs.
    change (negb (String.eqb "trash" "trash")) with false. cbv iota zeta.
    unfold save. fold x'.
    rewrite validate_enum; [reflexivity|exact Ht|simpl; auto]. }
  split; [|split].
  - intros Hs. unfold post_restore. rewrite H.
    apply String.eqb_neq in Hs. rewrite Hs. reflexivity.
  - intros Hs Ht. rewrite (Ok db o H Hs Ht).
    eexists. eexists. split; [reflexivity|].
    do 10 (split; [reflexivity|]). split; [repeat split|].
    split; [reflexivity|].
    change (set_prevStatus None
              (set_deletedAt None
                 (set_completedAt (Some now) (set_status "completed" o))))
      with (persisted
              (set_prevStatus None
                 (set_deletedAt None
                    (set_completedAt (Some now)
                       (set_status "completed" o))))) at 1.
    now apply (saved_In ObjectId_isValid Number_ db id o).
  - intros deletedNow ND Ht.
    rewrite (delete_order_soft db id o false deletedNow H Ht). cbv zeta.
    set (trashed := set_deletedAt (Some deletedNow)
                      (set_status "trash"
                         (set_prevStatus (Some (status o)) o))).
    assert (findOrderByAnyId ObjectId_isValid Number_
              (map (replace_doc trashed) (orders db)) id
            = Some (persisted trashed)) as L1
        by (apply (findOrderByAnyId_saved _ _ (orders db) o);
            [exact ND|repeat split|exact H]).
    pose proof (Ok (with_orders (map (replace_doc trashed) (orders db)) db)
                   (persisted trashed) L1 eq_refl Ht) as E2.
    cbv zeta in E2.
    do 4 eexists. split; [reflexivity|]. split; [reflexivity|].
    split; [reflexivity|]. split; [exact E2|].
    do 4 (split; [reflexivity|]).
    simpl orders.
    match goal with
    | |- findOrderByAnyId _ _ (map (replace_doc ?r) ?c) id = Some ?r =>
        change (Some r) with (Some (persisted r));
        apply (findOrderByAnyId_saved _ _ c (persisted trashed));
        [now rewrite ids_replace_doc|repeat split|exact L1]
    end.
Qed.

End Restore.

Lemma post_restore_spec_witness :
  findOrderByAnyId Sample.isValid Sample.Number_ (orders Sample.db3) "x1"
  = Some Sample.vip1
  /\ status Sample.vip1 <> "trash"%string
  /\ post_restore Sample.isValid Sample.Number_ Sample.db3 "x1" 5000
     = (Status 400, Sample.db3)
  /\ exists trashed db1 restored db2,
       delete_order Sample.isValid Sample.Number_ Sample.db3 "x1"
                    false false 4000 = (Json (Some trashed), db1)
       /\ status trashed = "trash"%string
       /\ post_restore Sample.isValid Sample.Number_ db1 "x1" 5000
          = (Json restored, db2)
       /\ status restored = "completed"%string
       /\ completedAt restored = Some 5000.
Proof.
  assert (findOrderByAnyId Sample.isValid Sample.Number_
            (orders Sample.db3) "x1" = Some Sample.vip1) as H
      by reflexivity.
  assert (status Sample.vip1 <> "trash"%string) as Hs by discriminate.
  destruct (post_restore_spec Sample.isValid Sample.Number_ Sample.db3 "x1"
              Sample.vip1 5000 H) as (Hno & _ & Hround).
  split; [exact H|]. split; [exact Hs|]. split; [exact (Hno Hs)|].
  destruct (Hround 4000) as (t & db1 & r & db2 & E1 & S1 & _ & E2 & S2 & C2 & _).
  - simpl. repeat constructor; simpl; intuition discriminate.
  - simpl. auto.
  - exists t, db1, r, db2. repeat split; assumption.
Defined.

(** ** The chunked sender *)

Lemma length_append (s t : string) :
  String.length (String.append s t) = (String.length s + String.length t)%nat.
Proof. induction s as [|c s IH]; simpl; [reflexivity|now rewrite IH]. Qed.

Lemma append_assoc (s t u : string) :
  String.append (String.append s t) u = String.append s (String.append t u).
Proof. induction s as [|c s IH]; simpl; [reflexivity|now rewrite IH]. Qed.

Lemma append_empty_r (s : string) : String.append s EmptyString = s.
Proof. induction s as [|c s IH]; simpl; [reflexivity|now rewrite IH]. Qed.

Lemma flatten_snoc (texts : list string) (t : string) :
  Telegram.flatten (texts ++ [t])
  = String.append (Telegram.flatten texts) t.
Proof.
  induction texts as [|x texts IH]; simpl.
  - apply append_empty_r.
  - now rewrite IH, append_assoc.
Qed.

(** The flush rule of one turn of the loop. *)
Lemma step_rule (sent : list string) (chunk line : string) :
  Telegram.step (sent, chunk) line
  = if (Telegram.MAX
        <? String.length (String.append chunk (Telegram.with_nl line)))%nat
    then (sent ++ [chunk], Telegram.with_nl line)
    else (sent, String.append chunk (Telegram.with_nl line)).
Proof.
  unfold Telegram.step, Telegram.with_nl. rewrite append_assoc.
  destruct (_ <? _)%nat; reflexivity.
Qed.

(** What the loop keeps true, whatever the lines: the text sent so far
    followed by the current chunk is the text built so far, in order. *)
Lemma loop_text (lines : list string) (sent : list string) (chunk : string) :
  let '(sent', chunk') := fold_left Telegram.step lines (sent, chunk) in
  String.append (Telegram.flatten sent') chunk'
  = String.append (String.append (Telegram.flatten sent) chunk)
                  (Telegram.flatten (map Telegram.with_nl lines)).
Proof.
  revert sent chunk. induction lines as [|line lines IH]; intros sent chunk.
  - simpl. now rewrite append_empty_r.
  - cbn [fold_left map Telegram.flatten]. rewrite step_rule.
    destruct (_ <? _)%nat.
    + specialize (IH (sent ++ [chunk]) (Telegram.with_nl line)).
      destruct (fold_left _ _ _) as (s', c'). rewrite IH.
      now rewrite flatten_snoc, !append_assoc.
    + specialize (IH sent (String.append chunk (Telegram.with_nl line))).
      destruct (fold_left _ _ _) as (s', c'). rewrite IH.
      now rewrite !append_assoc.
Qed.

(** The first text, sent or still current, starts with the first chunk. *)
Lemma loop_head (lines : list string) (sent : list string)
      (chunk first : string) :
  (exists rest, hd chunk sent = String.append first rest) ->
  let '(sent', chunk') := fold_left Telegram.step lines (sent, chunk) in
  exists rest, hd chunk' sent' = String.append first rest.
Proof.
  revert sent chunk. induction lines as [|line lines IH]; intros sent chunk H.
  - exact H.
  - cbn [fold_left]. rewrite step_rule. destruct (_ <? _)%nat.
    + apply IH. destruct sent as [|x sent]; exact H.
    + apply IH. destruct sent as [|x sent]; [|exact H].
      destruct H as (rest & H). simpl in H. simpl. rewrite H.
      exists (String.append rest (Telegram.with_nl line)).
      apply append_assoc.
Qed.

(** With lines that fit, every flushed chunk and the current chunk fit, and
    no flushed chunk is empty. *)
Lemma loop_bound (lines : list string) (sent : list string) (chunk : string) :
  Forall (fun line => (String.length line + 1 <= Telegram.MAX)%nat) lines ->
  Forall (fun m => (String.length m <= Telegram.MAX)%nat /\ m <> EmptyString)
         sent ->
  (String.length chunk <= Telegram.MAX)%nat ->
  let '(sent', chunk') := fold_left Telegram.step lines (sent, chunk) in
  Forall (fun m => (String.length m <= Telegram.MAX)%nat /\ m <> EmptyString)
         sent'
  /\ (String.length chunk' <= Telegram.MAX)%nat.
Proof.
  revert sent chunk.
  induction lines as [|line lines IH]; intros sent chunk Hl Hs Hc.
  - simpl. auto.
  - inversion Hl as [|? ? Hline Hrest]; subst.
    assert (String.length (Telegram.with_nl line)
            = (String.length line + 1)%nat) as Hnl
        by (unfold Telegram.with_nl; now rewrite length_append).
    cbn [fold_left]. rewrite step_rule.
    destruct (_ <? _)%nat eqn:Hflush.
    + apply IH; [assumption| |lia].
      apply Forall_app. split; [assumption|].
      constructor; [|constructor]. split; [assumption|].
      intros ->. apply Nat.ltb_lt in Hflush. simpl in Hflush. lia.
    + apply IH; [assumption|assumption|].
      apply Nat.ltb_ge in Hflush. exact Hflush.
Qed.

Lemma trim_nonempty (chunk : string) :
  Telegram.nonempty (Telegram.trim chunk) = true -> chunk <> EmptyString.
Proof. intros H ->. discriminate H. Qed.

Lemma with_nl_nonempty (line : string) : Telegram.with_nl line <> EmptyString.
Proof. destruct line; discriminate. Qed.

Lemma append_with_nl_nonempty (chunk line : string) :
  String.append chunk (Telegram.with_nl line) <> EmptyString.
Proof.
  destruct chunk; [apply with_nl_nonempty|discriminate].
Qed.

(** Whatever the lines, a text longer than [MAX] is the start value of
    [chunk] or a single line, flushed on its own. *)
Lemma loop_alone (first : string) (all lines : list string)
      (sent : list string) (chunk : string) :
  (forall line, In line lines -> In line all) ->
  Forall (Telegram.fits_or_alone first all) sent ->
  Telegram.fits_or_alone first all chunk ->
  let '(sent', chunk') := fold_left Telegram.step lines (sent, chunk) in
  Forall (Telegram.fits_or_alone first all) sent'
  /\ Telegram.fits_or_alone first all chunk'.
Proof.
  revert sent chunk.
  induction lines as [|line lines IH]; intros sent chunk Hin Hs Hc.
  - simpl. auto.
  - cbn [fold_left]. rewrite step_rule.
    assert (forall l, In l lines -> In l all) as Hin'
        by (intros l Hl; apply Hin; now right).
    destruct (_ <? _)%nat eqn:Hflush.
    + apply IH; [exact Hin'| |].
      * apply Forall_app. split; [exact Hs|]. now constructor.
      * right. right. exists line. split; [apply Hin; now left|reflexivity].
    + apply IH; [exact Hin'|exact Hs|].
      left. apply Nat.ltb_ge in Hflush. exact Hflush.
Qed.

(** Whatever the lines, only the first text handed over can be empty. *)
Lemma loop_nonempty_tail (lines : list string) (sent : list string)
      (chunk : string) :
  Forall (fun m => m <> EmptyString) (tl sent) ->
  (sent <> [] -> chunk <> EmptyString) ->
  let '(sent', chunk') := fold_left Telegram.step lines (sent, chunk) in
  Forall (fun m => m <> EmptyString) (tl sent')
  /\ (sent' <> [] -> chunk' <> EmptyString).
Proof.
  revert sent chunk.
  induction lines as [|line lines IH]; intros sent chunk Hs Hc.
  - simpl. auto.
  - cbn [fold_left]. rewrite step_rule. destruct (_ <? _)%nat.
    + apply IH; [|intros _; apply with_nl_nonempty].
      destruct sent as [|x sent]; [constructor|].
      cbn [app tl] in *. apply Forall_app. split; [exact Hs|].
      constructor; [|constructor]. apply Hc. discriminate.
    + apply IH; [exact Hs|]. intros _. apply append_with_nl_nonempty.
Qed.

(** With a title, no text handed over is empty. *)
Lemma loop_nonempty (lines : list string) (sent : list string)
      (chunk : string) :
  Forall (fun m => m <> EmptyString) sent -> chunk <> EmptyString ->
  let '(sent', chunk') := fold_left Telegram.step lines (sent, chunk) in
  Forall (fun m => m <> EmptyString) sent' /\ chunk' <> EmptyString.
Proof.
  revert sent chunk.
  induction lines as [|line lines IH]; intros sent chunk Hs Hc.
  - simpl. auto.
  - cbn [fold_left]. rewrite step_rule. destruct (_ <? _)%nat.
    + apply IH; [|apply with_nl_nonempty].
      apply Forall_app. split; [exact Hs|]. now constructor.
    + apply IH; [exact Hs|]. apply append_with_nl_nonempty.
Qed.

(** X21: the chunked sender, for every list of lines and every title.  The
    texts handed to sendToTelegram are the chunks flushed by the loop,
    followed by the last chunk unless it is blank.  The flushed chunks
    followed by the last chunk spell the title line and then the lines,
    each with its newline, in order, and the first of them starts with the
    title line.  One turn of the loop flushes the chunk and starts a new
    one with the line exactly when the chunk with the line and its newline
    is longer than 4000, and appends the line otherwise.  A text longer
    than 4000 is therefore the title line or one single line with its
    newline, sent on its own; only the first text can be empty, and none is
    when there is a title.  When the title line and every line with its
    newline are at most 4000 long, every text is at most 4000 long and
    none is empty. *)
Theorem sendToTelegramChunks_messages (lines : list string) (title : string) :
  exists sent chunk,
    fold_left Telegram.step lines ([], Telegram.first_chunk title)
    = (sent, chunk)
    /\ Telegram.sendToTelegramChunks lines title
       = (if Telegram.nonempty (Telegram.trim chunk)
          then sent ++ [chunk] else sent)
    /\ String.append (Telegram.flatten sent) chunk
       = String.append (Telegram.first_chunk title)
                       (Telegram.flatten (map Telegram.with_nl lines))
    /\ (exists rest,
           hd chunk sent = String.append (Telegram.first_chunk title) rest)
    /\ (forall s c line,
           Telegram.step (s, c) line
           = if (Telegram.MAX
                 <? String.length (String.append c (Telegram.with_nl line)))%nat
             then (s ++ [c], Telegram.with_nl line)
             else (s, String.append c (Telegram.with_nl line)))
    /\ Forall (Telegram.fits_or_alone (Telegram.first_chunk title) lines)
              (Telegram.sendToTelegramChunks lines title)
    /\ Forall (fun m => m <> EmptyString)
              (tl (Telegram.sendToTelegramChunks lines title))
    /\ (Telegram.first_chunk title <> EmptyString ->
        Forall (fun m => m <> EmptyString)
               (Telegram.sendToTelegramChunks lines title))
    /\ ((String.length (Telegram.first_chunk title) <= Telegram.MAX)%nat ->
        Forall (fun line => (String.length line + 1 <= Telegram.MAX)%nat)
               lines ->
        Forall (fun m => (String.length m <= Telegram.MAX)%nat
                         /\ m <> EmptyString)
               (Telegram.sendToTelegramChunks lines title)).
Proof.
  pose proof (loop_text lines [] (Telegram.first_chunk title)) as Htext.
  pose proof (loop_head lines [] (Telegram.first_chunk title)
                (Telegram.first_chunk title)
                (ex_intro _ EmptyString
                   (eq_sym (append_empty_r _)))) as Hhead.
  pose proof (loop_alone (Telegram.first_chunk title) lines lines []
                (Telegram.first_chunk title) (fun _ H => H) (Forall_nil _)
                (or_intror (or_introl eq_refl))) as Halone.
  pose proof (loop_nonempty_tail lines [] (Telegram.first_chunk title)
                (Forall_nil _) (fun H => False_ind _ (H eq_refl))) as Htail.
  pose proof (loop_nonempty lines [] (Telegram.first_chunk title)
                (Forall_nil _)) as Hall.
  pose proof (loop_bound lines [] (Telegram.first_chunk title)) as Hbound.
  unfold Telegram.sendToTelegramChunks.
  destruct (fold_left Telegram.step lines ([], Telegram.first_chunk title))
    as (sent, chunk).
  destruct Halone as (Hs1 & Hc1). destruct Htail as (Hs2 & Hc2).
  exists sent, chunk. split; [reflexivity|]. split; [reflexivity|].
  split; [exact Htext|]. split; [exact Hhead|]. split; [exact step_rule|].
  destruct (Telegram.nonempty (Telegram.trim chunk)) eqn:Hlast.
  - apply trim_nonempty in Hlast.
    split; [apply Forall_app; split; [exact Hs1|now constructor]|].
    split.
    { destruct sent as [|x sent]; [constructor|].
      cbn [app tl] in *. apply Forall_app. split; [exact Hs2|].
      now constructor. }
    split.
    { intros Hfirst. destruct (Hall Hfirst) as (A & _).
      apply Forall_app. split; [exact A|now constructor]. }
    intros Hfirst Hlines.
    destruct (Hbound Hlines (Forall_nil _) Hfirst) as (A & B).
    apply Forall_app. split; [exact A|]. constructor; [|constructor].
    split; assumption.
  - split; [exact Hs1|]. split; [exact Hs2|].
    split; [intros Hfirst; now destruct (Hall Hfirst)|].
    intros Hfirst Hlines.
    now destruct (Hbound Hlines (Forall_nil _) Hfirst).
Qed.

(** A report of three lines under a title, where the third turn of the loop
    flushes: two texts, of 4000 and 3 characters. *)
Lemma sendToTelegramChunks_messages_witness :
  map String.length
      (Telegram.sendToTelegramChunks
         [Sample.repeat_char "a" 1990; Sample.repeat_char "b" 1999;
          "cc"%string] "T")
  = [4000; 3]%nat
  /\ Forall (fun m => (String.length m <= Telegram.MAX)%nat
                      /\ m <> EmptyString)
            (Telegram.sendToTelegramChunks
               [Sample.repeat_char "a" 1990; Sample.repeat_char "b" 1999;
                "cc"%string] "T").
Proof.
  split; [vm_compute; reflexivity|].
  destruct (sendToTelegramChunks_messages
              [Sample.repeat_char "a" 1990; Sample.repeat_char "b" 1999;
               "cc"%string] "T")
    as (sent & chunk & _ & _ & _ & _ & _ & _ & _ & _ & B).
  apply B.
  - apply Nat.leb_le. vm_compute. reflexivity.
  - repeat constructor; apply Nat.leb_le; vm_compute; reflexivity.
Defined.

(** C9 (code defect): the sender caps a chunk at 4000 by flushing before a
    line that would not fit, but a line that is longer than the cap by
    itself is still sent whole.  For one line of 4100 characters under the
    title T it sends the title line and then a text of 4101 characters;
    with no title, the chunk it flushes first is the empty text. *)
Lemma sendToTelegramChunks_long_line :
  map String.length
      (Telegram.sendToTelegramChunks [Sample.repeat_char "a" 4100] "T")
  = [9; 4101]%nat
  /\ map String.length
         (Telegram.sendToTelegramChunks [Sample.repeat_char "a" 4100]
                                        EmptyString)
     = [0; 4101]%nat
  /\ ~ Forall (fun m => (String.length m <= 4000)%nat)
              (Telegram.sendToTelegramChunks [Sample.repeat_char "a" 4100]
                                             "T").
Proof.
  split; [vm_compute; reflexivity|]. split; [vm_compute; reflexivity|].
  intros H.
  assert (forallb (fun m => (String.length m <=? 4000)%nat)
            (Telegram.sendToTelegramChunks [Sample.repeat_char "a" 4100] "T")
          = true) as B.
  { apply forallb_forall. intros m Hm. apply Nat.leb_le.
    revert m Hm. now apply Forall_forall. }
  vm_compute in B. discriminate B.
Qed.

(** ** Further properties of the billing arithmetic *)

Lemma cdiv_le (a a' b : Z) : 0 < b -> a <= a' -> cdiv a b <= cdiv a' b.
Proof.
  intros Hb Hle.
  pose proof (cdiv_spec a b Hb). pose proof (cdiv_spec a' b Hb). nia.
Qed.

Lemma accruedOfMs_le env (d d' : Z) :
  0 < PRICE_PER_HOUR env -> d <= d' ->
  accruedOfMs env d <= accruedOfMs env d'.
Proof.
  intros HP Hle. rewrite !accruedOfMs_Z.
  apply Z.mul_le_mono_nonneg_r; [lia|].
  apply cdiv_le; [lia|]. apply cdiv_le; [lia|]. nia.
Qed.

(** X1: at a positive price the metered amount never goes down as time
    passes; it is 0 at the start instant and at least 1000 from the first
    millisecond after it. *)
Theorem vip_accrued_monotone env (startTime_ now1 now2 : Z) :
  0 < PRICE_PER_HOUR env ->
  now1 <= now2 ->
  vipAccruedAmount env startTime_ now1 <= vipAccruedAmount env startTime_ now2
  /\ vipAccruedAmount env startTime_ startTime_ = 0
  /\ (startTime_ < now1 -> 1000 <= vipAccruedAmount env startTime_ now1).
Proof.
  intros HP Hle. unfold vipAccruedAmount. split; [|split].
  - apply accruedOfMs_le; [assumption|lia].
  - rewrite Z.sub_diag, accruedOfMs_Z. reflexivity.
  - intros Hlt.
    pose proof (accruedOfMs_least env (now1 - startTime_)) as L.
    cbv zeta in L.
    destruct (accruedOfMs_multiple env (now1 - startTime_)) as (k & Hk).
    rewrite Hk in *. nia.
Qed.

Lemma vip_accrued_monotone_witness :
  0 < PRICE_PER_HOUR None /\ 1 <= 3600000
  /\ vipAccruedAmount None 0 1 <= vipAccruedAmount None 0 3600000
  /\ 1000 <= vipAccruedAmount None 0 1.
Proof.
  assert (0 < PRICE_PER_HOUR None) as HP by reflexivity.
  assert (1 <= 3600000) as Hle by lia.
  destruct (vip_accrued_monotone None 0 1 3600000 HP Hle) as (M & _ & L).
  split; [exact HP|]. split; [exact Hle|]. split; [exact M|].
  apply L. lia.
Defined.

Section Refund.

Variable env : option Z.
Variable ObjectId_isValid : string -> bool.
Variable Number_ : string -> option Q.


End Refund.


(** ** What every route keeps of the collection *)

Lemma map_well_formed (g : Order -> Order) (d d' : Db) :
  well_formed d ->
  orders d' = map g (orders d) ->
  counter d' = counter d ->
  (forall o, In o (orders d) -> validate o = true ->
             same_keys o (g o) /\ validate (g o) = true) ->
  well_formed d'.
Proof.
  intros (N1 & N2 & Hseq & Hall) Ho Hc Hg.
  assert (forall o, In o (orders d) ->
                    same_keys o (g o) /\ validate (g o) = true) as Hg'.
  { intros o Hin. apply Hg; [assumption|].
    rewrite Forall_forall in Hall. now destruct (Hall o Hin). }
  unfold well_formed, seq_value. rewrite Ho, Hc. fold (seq_value d).
  split; [|split; [|split; [assumption|]]].
  - rewrite map_map.
    rewrite (map_ext_in (fun x => _id (g x)) _id); [assumption|].
    intros o Hin. now destruct (Hg' o Hin) as ((K & _) & _).
  - rewrite map_map.
    rewrite (map_ext_in (fun x => orderId (g x)) orderId); [assumption|].
    intros o Hin. now destruct (Hg' o Hin) as ((_ & K & _) & _).
  - apply Forall_forall. intros x Hx. apply in_map_iff in Hx.
    destruct Hx as (o & <- & Hin).
    destruct (Hg' o Hin) as ((_ & K & _) & V). split; [exact V|].
    rewrite K. rewrite Forall_forall in Hall. now destruct (Hall o Hin).
Qed.

Lemma save_well_formed (d d' : Db) (found o : Order) :
  well_formed d -> In found (orders d) -> same_keys found o ->
  save o d = Some d' -> well_formed d'.
Proof.
  intros W Hin K S. unfold save in S.
  destruct (validate o) eqn:V; [|discriminate]. injection S as <-.
  apply (map_well_formed (replace_doc o) d); [assumption|reflexivity
                                             |reflexivity|].
  intros x Hx Vx. split.
  - destruct W as (N1 & _). now apply (replace_doc_keys (orders d) found).
  - unfold replace_doc. destruct (String.eqb (_id x) (_id o)); assumption.
Qed.

Lemma edit_amount_keys env (a : Z) (o o' : Order) :
  edit_amount env a o = inr o' -> same_keys o o'.
Proof.
  unfold edit_amount.
  destruct (_ && _); [discriminate|]. destruct (_ && _); [discriminate|].
  cbv zeta. destruct (String.eqb _ _); [destruct (Date_valid _)|];
    intros [= <-]; repeat split.
Qed.

Lemma same_keys_trans (a b c : Order) :
  same_keys a b -> same_keys b c -> same_keys a c.
Proof.
  intros (A1 & A2 & A3) (B1 & B2 & B3). repeat split; congruence.
Qed.

Lemma filter_keys_distinct {K : Type} (key : Order -> K) (keep : Order -> bool)
      (coll : list Order) :
  NoDup (map key coll) -> NoDup (map key (filter keep coll)).
Proof.
  induction coll as [|d coll IH]; intros ND; [constructor|].
  cbn [map] in ND. apply NoDup_cons_iff in ND. destruct ND as (Hd & ND).
  cbn [filter]. destruct (keep d); [|now apply IH].
  cbn [map]. apply NoDup_cons; [|now apply IH].
  intros Hin. apply Hd. apply in_map_iff in Hin.
  destruct Hin as (y & E & Hy). apply filter_In in Hy.
  rewrite <- E. apply in_map. tauto.
Qed.

Section Invariant.

Variable env : option Z.
Variable ObjectId_isValid : string -> bool.
Variable Number_ : string -> option Q.

Lemma post_order_well_formed d body now created new_id new_externalId :
  well_formed d ->
  (forall x, In x (orders d) -> _id x <> new_id) ->
  well_formed (snd (post_order env d body now created new_id new_externalId)).
Proof.
  intros W Hfresh. unfold post_order.
  destruct (_ && _); [exact W|]. cbv zeta.
  destruct (Date_castable _); [|exact W]. unfold save_new.
  match goal with |- context [validate ?x] => destruct (validate x) eqn:V end;
    [|exact W].
  unfold getNextSequence. cbn [snd fst orders with_orders counter].
  destruct W as (N1 & N2 & Hseq & Hall).
  fold (seq_value d).
  assert ((match counter d with Some n => n + 1 | None => 1 end)
          = seq_value d + 1) as -> by (unfold seq_value; destruct (counter d);
                                       reflexivity).
  unfold well_formed, seq_value. cbn [orders counter with_orders].
  fold (seq_value d).
  rewrite !map_app. cbn [map _id orderId persisted set_prevStatus].
  rewrite Forall_forall in Hall.
  split; [|split; [|split; [lia|]]].
  - apply NoDup_app; [assumption|repeat constructor; simpl; tauto|].
    intros a Ha [<-|[]]. apply in_map_iff in Ha.
    destruct Ha as (x & E & Hx). now apply (Hfresh x Hx).
  - apply NoDup_app; [assumption|repeat constructor; simpl; tauto|].
    intros a Ha [<-|[]]. apply in_map_iff in Ha.
    destruct Ha as (x & E & Hx). destruct (Hall x Hx) as (_ & R). lia.
  - apply Forall_app. split.
    + apply Forall_forall. intros x Hx. destruct (Hall x Hx) as (Vx & R).
      split; [assumption|lia].
    + constructor; [|constructor]. split; [exact V|simpl; lia].
Qed.

Lemma autoComplete_well_formed d now :
  well_formed d -> well_formed (autoComplete d now).
Proof.
  intros W. pose proof W as (N1 & _).
  apply (map_well_formed
           (fun o => if expired now o
                     then persisted (mark_completed now o) else o) d).
  - exact W.
  - now apply autoComplete_orders.
  - unfold autoComplete.
    destruct (autoComplete_loop_orders now
                (filter (expired now) (orders d)) d) as (_ & C);
      [|exact C].
    intros o Ho. apply filter_In in Ho. destruct Ho as (_ & Ho).
    unfold expired in Ho. apply andb_true_iff in Ho. destruct Ho as (Ho & _).
    apply andb_true_iff in Ho. destruct Ho as (_ & Ho).
    now apply String.eqb_eq.
  - intros o Ho V. destruct (expired now o) eqn:E; [|repeat split; exact V].
    split; [repeat split|].
    apply validate_type in V. destruct V as (Vt & _).
    apply validate_enum; simpl; auto.
Qed.

(** X3: a well-formed collection (distinct [_id], distinct [orderId], every
    [orderId] positive and issued by the counter, [type] and [status] within
    the enums) stays well-formed under every route that writes orders:
    create (given a fresh [_id]), edit, complete, the three deletes,
    restore, the sweep, the daily reset and the archive of the day. *)
Theorem routes_keep_well_formed d id body now cn created new_id
        new_externalId permanent superKey dayStart dayEnd dateStr arch :
  well_formed d ->
  ((forall x, In x (orders d) -> _id x <> new_id) ->
   well_formed
     (snd (post_order env d body now created new_id new_externalId)))
  /\ well_formed (snd (put_order env ObjectId_isValid Number_ d id body))
  /\ well_formed
       (snd (post_complete env ObjectId_isValid Number_ d id now cn))
  /\ well_formed
       (snd (delete_order ObjectId_isValid Number_ d id permanent superKey
                          now))
  /\ well_formed (snd (delete_completed ObjectId_isValid Number_ d id now))
  /\ well_formed (snd (delete_orders ObjectId_isValid Number_ d id now))
  /\ well_formed (snd (post_restore ObjectId_isValid Number_ d id now))
  /\ well_formed (autoComplete d now)
  /\ well_formed (snd (daily_reset d now))
  /\ well_formed
       (db (snd (archive_day (mkStore d arch) dayStart dayEnd dateStr now
                             created))).
Proof.
  intros W.
  assert (forall o, validate o = true ->
                    validate (to_trash now o) = true) as Vtrash.
  { intros o V. apply validate_type in V. destruct V as (Vt & _).
    apply validate_enum; simpl; auto. }
  split; [now apply post_order_well_formed|].
  split.
  { unfold put_order.
    destruct (findOrderByAnyId _ _ _ _) as [o|] eqn:L; [|exact W].
    apply findOrderByAnyId_In in L. cbv zeta.
    destruct (assign_fields_frame body o) as (_ & _ & _ & K).
    destruct (body_amount body) as [a|].
    - destruct (edit_amount env a (assign_fields body o)) as [c|o1] eqn:E;
        [exact W|].
      apply edit_amount_keys in E.
      destruct (save _ d) as [d'|] eqn:S; [|exact W].
      apply (save_well_formed d d' o _ W L) in S; [exact S|].
      apply (same_keys_trans o (assign_fields body o)); [exact K|].
      apply (same_keys_trans _ o1); [exact E|].
      destruct (truthy (body_status body)); repeat split.
    - destruct (save _ d) as [d'|] eqn:S; [|exact W].
      apply (save_well_formed d d' o _ W L) in S; [exact S|].
      apply (same_keys_trans o (assign_fields body o)); [exact K|].
      destruct (truthy (body_status body)); repeat split. }
  split.
  { unfold post_complete.
    destruct (findOrderByAnyId _ _ _ _) as [o|] eqn:L; [|exact W].
    apply findOrderByAnyId_In in L. cbv zeta.
    destruct (save _ d) as [d'|] eqn:S; [|exact W].
    apply (save_well_formed d d' o _ W L) in S; [exact S|].
    destruct (String.eqb (type o) "vip"); [repeat split|].
    destruct (String.eqb (type o) "cash"); [|repeat split].
    destruct (endTime o) as [e|]; [destruct (now <? e)|]; repeat split. }
  split.
  { unfold delete_order.
    destruct (findOrderByAnyId _ _ _ _) as [o|] eqn:L; [|exact W].
    apply findOrderByAnyId_In in L.
    destruct permanent.
    - destruct (negb superKey); [exact W|].
      destruct W as (N1 & N2 & Hseq & Hall).
      unfold well_formed, seq_value. cbn [snd orders counter with_orders].
      fold (seq_value d).
      split; [now apply filter_keys_distinct|].
      split; [now apply filter_keys_distinct|]. split; [assumption|].
      apply Forall_forall. intros x Hx. apply filter_In in Hx.
      rewrite Forall_forall in Hall. now apply Hall.
    - cbv zeta. destruct (save _ d) as [d'|] eqn:S; [|exact W].
      apply (save_well_formed d d' o _ W L) in S; [exact S|repeat split]. }
  split.
  { unfold delete_completed.
    destruct (findOrderByAnyId _ _ _ _) as [o|] eqn:L; [|exact W].
    apply findOrderByAnyId_In in L.
    destruct (negb _); [exact W|]. cbv zeta.
    destruct (save _ d) as [d'|] eqn:S; [|exact W].
    apply (save_well_formed d d' o _ W L) in S; [exact S|repeat split]. }
  split.
  { unfold delete_orders.
    destruct (findOrderByAnyId _ _ _ _) as [o|] eqn:L; [|exact W].
    apply findOrderByAnyId_In in L. cbv zeta.
    destruct (save _ d) as [d'|] eqn:S; [|exact W].
    apply (save_well_formed d d' o _ W L) in S; [exact S|repeat split]. }
  split.
  { unfold post_restore.
    destruct (findOrderByAnyId _ _ _ _) as [o|] eqn:L; [|exact W].
    apply findOrderByAnyId_In in L.
    destruct (negb _); [exact W|]. cbv zeta.
    destruct (save _ d) as [d'|] eqn:S; [|exact W].
    apply (save_well_formed d d' o _ W L) in S; [exact S|repeat split]. }
  split; [now apply autoComplete_well_formed|].
  split.
  { apply (map_well_formed
             (fun o => if active o then to_trash now o else o) d);
      [exact W|reflexivity|reflexivity|].
    intros o _ V. destruct (active o); [|repeat split; exact V].
    split; [repeat split|now apply Vtrash]. }
  { unfold archive_day. cbn [db].
    destruct (filter _ (orders d)) as [|f found] eqn:F; [exact W|].
    cbn [snd db].
    apply (map_well_formed
             (fun o => if existsb (String.eqb (_id o)) (map _id (f :: found))
                       then to_trash now o else o) d);
      [exact W|reflexivity|reflexivity|].
    intros o _ V. destruct (existsb _ _); [|repeat split; exact V].
    split; [repeat split|now apply Vtrash]. }
Qed.

End Invariant.

Lemma db3_well_formed : well_formed Sample.db3.
Proof.
  unfold well_formed.
  split; [simpl; repeat constructor; simpl; intuition discriminate|].
  split; [simpl; repeat constructor; simpl; intuition discriminate|].
  split; [vm_compute; discriminate|].
  repeat constructor; vm_compute; try reflexivity; discriminate.
Defined.

Lemma db5_well_formed : well_formed Sample2.db5.
Proof.
  unfold well_formed.
  split; [simpl; repeat constructor; simpl; intuition discriminate|].
  split; [simpl; repeat constructor; simpl; intuition discriminate|].
  split; [vm_compute; discriminate|].
  repeat constructor; vm_compute; try reflexivity; discriminate.
Defined.

Lemma routes_keep_well_formed_witness :
  well_formed Sample.db3
  /\ well_formed (autoComplete Sample.db3 7200000)
  /\ well_formed
       (snd (post_complete None Sample.isValid Sample.Number_ Sample.db3 "1"
                           3600000 3600000)).
Proof.
  split; [exact db3_well_formed|].
  destruct (routes_keep_well_formed None Sample.isValid Sample.Number_
              Sample.db3 "1" (Sample.body "vip" None None) 7200000 7200000
              0 "aaaaaaaaaaaaaaaaaaaaaaa9" "x9" false false 0 0 "d" []
              db3_well_formed) as (_ & _ & _ & _ & _ & _ & _ & A & _).
  destruct (routes_keep_well_formed None Sample.isValid Sample.Number_
              Sample.db3 "1" (Sample.body "vip" None None) 3600000 3600000
              0 "aaaaaaaaaaaaaaaaaaaaaaa9" "x9" false false 0 0 "d" []
              db3_well_formed) as (_ & _ & C & _).
  split; [exact A|exact C].
Defined.

Section Frame.

Variable env : option Z.
Variable ObjectId_isValid : string -> bool.
Variable Number_ : string -> option Q.

(** X4: a route that answers with an error status has written nothing: the
    database it leaves is the one it was given.  An identifier that
    resolves to no order is answered with 404 by each of the six routes
    that take one. *)
Theorem error_answers_write_nothing d d' id body now cn created new_id
        new_externalId permanent superKey code :
  (post_order env d body now created new_id new_externalId
   = (Status code, d') -> d' = d)
  /\ (put_order env ObjectId_isValid Number_ d id body = (Status code, d') ->
      d' = d)
  /\ (post_complete env ObjectId_isValid Number_ d id now cn
      = (Status code, d') -> d' = d)
  /\ (delete_order ObjectId_isValid Number_ d id permanent superKey now
      = (Status code, d') -> d' = d)
  /\ (delete_completed ObjectId_isValid Number_ d id now = (Status code, d') ->
      d' = d)
  /\ (delete_orders ObjectId_isValid Number_ d id now = (Status code, d') ->
      d' = d)
  /\ (post_restore ObjectId_isValid Number_ d id now = (Status code, d') ->
      d' = d)
  /\ (findOrderByAnyId ObjectId_isValid Number_ (orders d) id = None ->
      put_order env ObjectId_isValid Number_ d id body = (Status 404, d)
      /\ post_complete env ObjectId_isValid Number_ d id now cn
         = (Status 404, d)
      /\ delete_order ObjectId_isValid Number_ d id permanent superKey now
         = (Status 404, d)
      /\ delete_completed ObjectId_isValid Number_ d id now = (Status 404, d)
      /\ delete_orders ObjectId_isValid Number_ d id now = (Status 404, d)
      /\ post_restore ObjectId_isValid Number_ d id now = (Status 404, d)).
Proof.
  split.
  { unfold post_order, save_new. cbv zeta. intros H.
    destruct (_ && _); [now inversion H|].
    destruct (Date_castable _); [|now inversion H].
    match type of H with
    | context [validate ?x] => destruct (validate x)
    end; [|now inversion H].
    destruct (getNextSequence d). discriminate. }
  split; [intros H; symmetry; symmetry; now apply put_order_error_frame in H|].
  split.
  { unfold post_complete. cbv zeta. intros H.
    destruct (findOrderByAnyId _ _ _ _); [|now inversion H].
    destruct (save _ d); [discriminate|now inversion H]. }
  split.
  { unfold delete_order. cbv zeta. intros H.
    destruct (findOrderByAnyId _ _ _ _); [|now inversion H].
    destruct permanent.
    - destruct (negb superKey); [now inversion H|discriminate].
    - destruct (save _ d); [discriminate|now inversion H]. }
  split.
  { unfold delete_completed. cbv zeta. intros H.
    destruct (findOrderByAnyId _ _ _ _); [|now inversion H].
    destruct (negb _); [now inversion H|].
    destruct (save _ d); [discriminate|now inversion H]. }
  split.
  { unfold delete_orders. cbv zeta. intros H.
    destruct (findOrderByAnyId _ _ _ _); [|now inversion H].
    destruct (save _ d); [discriminate|now inversion H]. }
  split.
  { unfold post_restore. cbv zeta. intros H.
    destruct (findOrderByAnyId _ _ _ _); [|now inversion H].
    destruct (negb _); [now inversion H|].
    destruct (save _ d); [discriminate|now inversion H]. }
  intros L. unfold put_order, post_complete, delete_order, delete_completed,
              delete_orders, post_restore.
  rewrite L. repeat split.
Qed.

End Frame.

(** ** Create: the sequence and the way back to the order *)

Lemma find_snoc (p : Order -> bool) (coll : list Order) (o : Order) :
  find p (coll ++ [o])
  = match find p coll with
    | Some x => Some x
    | None => if p o then Some o else None
    end.
Proof.
  induction coll as [|d coll IH]; simpl; [reflexivity|].
  destruct (p d); [reflexivity|exact IH].
Qed.

Lemma post_order_created env d body now created new_id new_externalId o d' :
  post_order env d body now created new_id new_externalId = (Json o, d') ->
  orderId o = seq_value d + 1
  /\ counter d' = Some (orderId o)
  /\ orders d' = orders d ++ [o]
  /\ _id o = new_id /\ externalId o = new_externalId
  /\ status o = "process"%string /\ createdAt o = created
  /\ completedAt o = None /\ deletedAt o = None.
Proof.
  unfold post_order, save_new, getNextSequence. cbv zeta.
  destruct (_ && _); [discriminate|].
  destruct (Date_castable _); [|discriminate].
  match goal with
  | |- context [validate ?x] => destruct (validate x)
  end; [|discriminate].
  intros [= <- <-]. cbn.
  unfold seq_value. destruct (counter d); repeat split.
Qed.

(** X5: a create that is answered with the order has taken the next number
    of the sequence: its orderId is the last one issued plus 1 (1 for the
    first order), the counter now holds it, and the order is appended to the
    collection in process with the generated keys.  The next successful
    create gets the following number. *)
Theorem post_order_allocates env d body now created new_id new_externalId
        o d' :
  post_order env d body now created new_id new_externalId = (Json o, d') ->
  orderId o = seq_value d + 1
  /\ seq_value d' = orderId o
  /\ orders d' = orders d ++ [o]
  /\ _id o = new_id /\ externalId o = new_externalId
  /\ status o = "process"%string /\ createdAt o = created
  /\ (forall body2 now2 created2 id2 ext2 o2 d2,
         post_order env d' body2 now2 created2 id2 ext2 = (Json o2, d2) ->
         orderId o2 = orderId o + 1).
Proof.
  intros H. apply post_order_created in H.
  destruct H as (H1 & H2 & H3 & H4 & H5 & H6 & H7 & _).
  assert (seq_value d' = orderId o) as S by (unfold seq_value; now rewrite H2).
  repeat split; try assumption.
  intros body2 now2 created2 id2 ext2 o2 d2 H'.
  apply post_order_created in H'. destruct H' as (H' & _). now rewrite H', S.
Qed.

Lemma post_order_allocates_witness :
  post_order None Sample.db3 (Sample.body "cash" (Some 15000) None)
             1000 1000 "aaaaaaaaaaaaaaaaaaaaaaa4" "x4"
  = (Json (mkOrder "aaaaaaaaaaaaaaaaaaaaaaa4" 4 "x4" "PS1" "cash" 1000
                   (Some 3601000) 15000 "process" 1000 None None None),
     mkDb (orders Sample.db3
           ++ [mkOrder "aaaaaaaaaaaaaaaaaaaaaaa4" 4 "x4" "PS1" "cash" 1000
                       (Some 3601000) 15000 "process" 1000 None None None])
          (Some 4))
  /\ 4 = seq_value Sample.db3 + 1.
Proof.
  assert (post_order None Sample.db3 (Sample.body "cash" (Some 15000) None)
             1000 1000 "aaaaaaaaaaaaaaaaaaaaaaa4" "x4"
          = (Json (mkOrder "aaaaaaaaaaaaaaaaaaaaaaa4" 4 "x4" "PS1" "cash" 1000
                     (Some 3601000) 15000 "process" 1000 None None None),
             mkDb (orders Sample.db3
                   ++ [mkOrder "aaaaaaaaaaaaaaaaaaaaaaa4" 4 "x4" "PS1" "cash"
                         1000 (Some 3601000) 15000 "process" 1000 None None
                         None])
                  (Some 4))) as E by (vm_compute; reflexivity).
  split; [exact E|].
  destruct (post_order_allocates _ _ _ _ _ _ _ _ _ E) as (A & _).
  exact A.
Defined.

Section CreateLookup.

Variable env : option Z.
Variable ObjectId_isValid : string -> bool.
Variable Number_ : string -> option Q.

(** X6: in a well-formed collection a created order is found again: by its
    new [_id], when that is a valid ObjectId no stored order has; and by any
    identifier that reads as its orderId and resolves to no primary key. *)
Theorem post_order_then_lookup d body now created new_id new_externalId o d' :
  well_formed d ->
  post_order env d body now created new_id new_externalId = (Json o, d') ->
  (ObjectId_isValid new_id = true ->
   (forall x, In x (orders d) -> _id x <> new_id) ->
   findOrderByAnyId ObjectId_isValid Number_ (orders d') new_id = Some o)
  /\ (forall id n,
         ObjectId_isValid id = false \/ findById (orders d') id = None ->
         Number_ id = Some n -> (inject_Z (orderId o) == n)%Q ->
         findOrderByAnyId ObjectId_isValid Number_ (orders d') id = Some o).
Proof.
  intros (_ & _ & _ & Hall) H. apply post_order_created in H.
  destruct H as (Hn & _ & Ho & Hid & _).
  rewrite Forall_forall in Hall. split.
  - intros Hv Hfresh. unfold findOrderByAnyId, findById.
    rewrite Hv, Ho, find_snoc.
    destruct (find (fun x => String.eqb (_id x) new_id) (orders d))
      as [x|] eqn:E.
    + apply find_some in E. destruct E as (Hx & E).
      apply String.eqb_eq in E. now destruct (Hfresh x Hx).
    + rewrite Hid, String.eqb_refl. reflexivity.
  - intros id n Hpk Hnum Hq.
    assert (findOne_orderId (orders d') n = Some o) as F.
    { unfold findOne_orderId. rewrite Ho, find_snoc.
      destruct (find (fun x => Qeq_bool (inject_Z (orderId x)) n) (orders d))
        as [x|] eqn:E.
      - apply find_some in E. destruct E as (Hx & E).
        apply Qeq_bool_iff in E. rewrite <- Hq in E.
        assert (orderId x = orderId o) as E'
            by (apply inject_Z_injective; exact E).
        destruct (Hall x Hx) as (_ & R). lia.
      - apply Qeq_bool_iff in Hq. now rewrite Hq. }
    unfold findOrderByAnyId. rewrite Hnum, F.
    destruct Hpk as [-> | ->]; [reflexivity|].
    destruct (ObjectId_isValid id); reflexivity.
Qed.

End CreateLookup.

Lemma post_order_then_lookup_witness :
  well_formed Sample.db3
  /\ findOrderByAnyId Sample.isValid Sample.Number_
       (orders (snd (post_order None Sample.db3
                       (Sample.body "cash" (Some 15000) None)
                       1000 1000 "aaaaaaaaaaaaaaaaaaaaaaa4" "x4")))
       "aaaaaaaaaaaaaaaaaaaaaaa4"
     = Sample.answer (post_order None Sample.db3
                        (Sample.body "cash" (Some 15000) None)
                        1000 1000 "aaaaaaaaaaaaaaaaaaaaaaa4" "x4").
Proof.
  split; [exact db3_well_formed|].
  destruct (post_order None Sample.db3 (Sample.body "cash" (Some 15000) None)
              1000 1000 "aaaaaaaaaaaaaaaaaaaaaaa4" "x4") as (r, d') eqn:E.
  assert (exists o, r = Json o) as (o & ->)
      by (vm_compute in E; injection E as <- _; eexists; reflexivity).
  destruct (post_order_then_lookup None Sample.isValid Sample.Number_
              Sample.db3 _ _ _ _ _ o d' db3_well_formed E) as (L & _).
  simpl snd. unfold Sample.answer. simpl fst. apply L; [reflexivity|].
  simpl. intros x [<-|[<-|[<-|[]]]]; discriminate.
Defined.

(** ** Edit: what an accepted request saves *)


Section EditMore.

Variable env : option Z.
Variable ObjectId_isValid : string -> bool.
Variable Number_ : string -> option Q.

(** X7: an edit that names no amount never touches summa or endTime, also
    when it moves startTime or changes the type: the saved order keeps the
    old endTime, takes the type, startTime and status of the request where
    it names them, and keeps its three keys. *)
Theorem put_order_without_amount d id body o o' d' :
  findOrderByAnyId ObjectId_isValid Number_ (orders d) id = Some o ->
  body_amount body = None ->
  put_order env ObjectId_isValid Number_ d id body = (Json o', d') ->
  summa o' = summa o /\ endTime o' = endTime o
  /\ type o' = type_after body o
  /\ status o' = status_after body o
  /\ startTime o'
     = match body_startTime body with Some t => t | None => startTime o end
  /\ same_keys o o'
  /\ orders d' = map (replace_doc o') (orders d).
Proof.
  intros L Ha. unfold put_order. rewrite L, Ha. cbv zeta.
  destruct (save _ d) as [d1|] eqn:S; [|discriminate].
  intros [= <- <-]. unfold save in S.
  destruct (validate _); [|discriminate]. injection S as <-.
  unfold status_after, type_after, assign_fields.
  destruct (truthy (body_ps body)), (truthy (body_type body)),
    (body_startTime body), (truthy (body_status body)); repeat split.
Qed.


End EditMore.

Lemma put_order_without_amount_witness :
  findOrderByAnyId Sample.isValid Sample.Number_ (orders Sample.db3) "2"
  = Some Sample.cash2
  /\ body_amount (mkBody None None None (Some 600000) None) = None
  /\ exists o' d',
       put_order None Sample.isValid Sample.Number_ Sample.db3 "2"
                 (mkBody None None None (Some 600000) None) = (Json o', d')
       /\ startTime o' = 600000 /\ endTime o' = Some 7200000
       /\ summa o' = 30000.
Proof.
  split; [reflexivity|]. split; [reflexivity|].
  destruct (put_order None Sample.isValid Sample.Number_ Sample.db3 "2"
              (mkBody None None None (Some 600000) None)) as (r, d') eqn:E.
  assert (exists o', r = Json o') as (o' & ->)
      by (vm_compute in E; injection E as <- _; eexists; reflexivity).
  destruct (put_order_without_amount None Sample.isValid Sample.Number_
              Sample.db3 "2" (mkBody None None None (Some 600000) None)
              Sample.cash2 o' d' eq_refl eq_refl E)
    as (A & B & _ & _ & C & _).
  exists o', d'. split; [reflexivity|]. split; [exact C|].
  split; [exact B|exact A].
Defined.


(** ** The sweep: idempotence and agreement with a manual complete *)

Lemma replace_doc_id (o x : Order) : _id (replace_doc o x) = _id x.
Proof.
  unfold replace_doc.
  destruct (String.eqb_spec (_id x) (_id o)) as [E|E]; [|reflexivity].
  simpl. now rewrite E.
Qed.

Lemma Db_ext (a b : Db) :
  orders a = orders b -> counter a = counter b -> a = b.
Proof. destruct a, b. simpl. now intros -> ->. Qed.

Lemma autoComplete_counter (d : Db) (now : Z) :
  counter (autoComplete d now) = counter d.
Proof.
  unfold autoComplete.
  destruct (autoComplete_loop_orders now
              (filter (expired now) (orders d)) d) as (_ & C); [|exact C].
  intros o Ho. apply filter_In in Ho. destruct Ho as (_ & Ho).
  unfold expired in Ho. apply andb_true_iff in Ho. destruct Ho as (Ho & _).
  apply andb_true_iff in Ho. destruct Ho as (_ & Ho).
  now apply String.eqb_eq.
Qed.

(** X9: on a collection with distinct [_id]s the sweep is idempotent: an
    order it completed is matched by no later run, at any instant; a second
    run at the same instant changes nothing; and a run that matches no
    order leaves the database as it is. *)
Theorem autoComplete_idempotent (d : Db) (now : Z) :
  NoDup (map _id (orders d)) ->
  (forall o later, In o (orders d) -> expired now o = true ->
                   expired later (persisted (mark_completed now o)) = false)
  /\ autoComplete (autoComplete d now) now = autoComplete d now
  /\ (filter (expired now) (orders d) = [] -> autoComplete d now = d).
Proof.
  intros ND. split; [|split].
  - intros o later _ _. reflexivity.
  - apply Db_ext; [|now rewrite !autoComplete_counter].
    assert (NoDup (map _id (orders (autoComplete d now)))) as ND'.
    { rewrite (autoComplete_orders now d ND), map_map.
      rewrite (map_ext_in
                 (fun x => _id (if expired now x
                                then persisted (mark_completed now x)
                                else x)) _id); [exact ND|].
      intros x _. destruct (expired now x); reflexivity. }
    rewrite (autoComplete_orders now _ ND').
    rewrite (autoComplete_orders now d ND), map_map.
    apply map_ext. intros o. destruct (expired now o) eqn:E.
    + reflexivity.
    + now rewrite E.
  - intros Hnone. unfold autoComplete. now rewrite Hnone.
Qed.

Lemma autoComplete_idempotent_witness :
  NoDup (map _id (orders Sample.db3))
  /\ autoComplete (autoComplete Sample.db3 7200000) 7200000
     = autoComplete Sample.db3 7200000
  /\ autoComplete Sample.db3 1000 = Sample.db3.
Proof.
  assert (NoDup (map _id (orders Sample.db3))) as ND.
  { simpl. repeat constructor; simpl; intuition discriminate. }
  destruct (autoComplete_idempotent Sample.db3 7200000 ND) as (_ & I & _).
  destruct (autoComplete_idempotent Sample.db3 1000 ND) as (_ & _ & N).
  split; [exact ND|]. split; [exact I|]. apply N. reflexivity.
Defined.

Section SweepAndComplete.

Variable env : option Z.
Variable ObjectId_isValid : string -> bool.
Variable Number_ : string -> option Q.

(** X10: a manual Complete of an order the sweep would match (in process,
    cash, endTime reached), with the sweep's instant as completedAt, stores
    the very document the sweep stores: summa and endTime untouched, no
    refund.  When it is the only order the sweep would match, the two
    leave the same database. *)
Theorem complete_expired_like_sweep d id o now :
  NoDup (map _id (orders d)) ->
  findOrderByAnyId ObjectId_isValid Number_ (orders d) id = Some o ->
  expired now o = true ->
  exists b d',
    post_complete env ObjectId_isValid Number_ d id now now = (Json b, d')
    /\ qaytish b = 0 /\ qolganMinut b = 0
    /\ order b = mark_completed now o
    /\ findById (orders d') (_id o)
       = findById (orders (autoComplete d now)) (_id o)
    /\ (filter (expired now) (orders d) = [o] -> d' = autoComplete d now).
Proof.
  intros ND L Hex. pose proof Hex as Hex'. unfold expired in Hex'.
  apply andb_true_iff in Hex'. destruct Hex' as (Hex' & He).
  apply andb_true_iff in Hex'. destruct Hex' as (_ & Ht).
  apply String.eqb_eq in Ht.
  rewrite (post_complete_cash env ObjectId_isValid Number_ d id o now now L Ht).
  destruct (endTime o) as [e|] eqn:Hend; [|discriminate].
  apply Z.leb_le in He.
  replace (now <? e) with false by (symmetry; apply Z.ltb_ge; lia).
  eexists. eexists. split; [reflexivity|].
  cbn [order qaytish qolganMinut orders with_orders].
  split; [reflexivity|]. split; [reflexivity|]. split; [reflexivity|].
  pose proof (findOrderByAnyId_In _ _ _ _ _ L) as Hin.
  split.
  - rewrite (autoComplete_orders now d ND). unfold findById.
    rewrite !find_map_same.
    + fold (findById (orders d) (_id o)).
      rewrite (findById_self (orders d) o ND Hin). simpl.
      unfold replace_doc. simpl _id. now rewrite String.eqb_refl, Hex.
    + intros x _. destruct (expired now x); reflexivity.
    + intros x _. now rewrite replace_doc_id.
  - intros Hone. unfold autoComplete. rewrite Hone.
    cbn [autoComplete_loop]. unfold save.
    rewrite validate_mark_completed by (rewrite Ht; simpl; auto).
    reflexivity.
Qed.

End SweepAndComplete.

Lemma complete_expired_like_sweep_witness :
  NoDup (map _id (orders Sample.db3))
  /\ findOrderByAnyId Sample.isValid Sample.Number_ (orders Sample.db3) "2"
     = Some Sample.cash2
  /\ expired 7200000 Sample.cash2 = true
  /\ snd (post_complete None Sample.isValid Sample.Number_ Sample.db3 "2"
                        7200000 7200000)
     = autoComplete Sample.db3 7200000.
Proof.
  assert (NoDup (map _id (orders Sample.db3))) as ND.
  { simpl. repeat constructor; simpl; intuition discriminate. }
  split; [exact ND|]. split; [reflexivity|]. split; [reflexivity|].
  destruct (complete_expired_like_sweep None Sample.isValid Sample.Number_
              Sample.db3 "2" Sample.cash2 7200000 ND eq_refl eq_refl)
    as (b & d' & E & _ & _ & _ & _ & Same).
  rewrite E. simpl snd. apply Same. reflexivity.
Defined.

(** ** Deletes *)

Section Deletes.

Variable env : option Z.
Variable ObjectId_isValid : string -> bool.
Variable Number_ : string -> option Q.

(** X11: the three soft deletes store the same document: the order with
    status trash and deletedAt now, every other field (summa, endTime, ...)
    as it was.  The generic route only adds the in-memory prevStatus, which
    is not stored; the route for completed orders answers 400, and writes
    nothing, unless the status is completed. *)
Theorem soft_deletes_agree d id o now superKey :
  findOrderByAnyId ObjectId_isValid Number_ (orders d) id = Some o ->
  In (type o) type_enum ->
  let stored :=
    with_orders (map (replace_doc (to_trash now o)) (orders d)) d in
  delete_orders ObjectId_isValid Number_ d id now
  = (Json (to_trash now o), stored)
  /\ delete_order ObjectId_isValid Number_ d id false superKey now
     = (Json (Some (set_prevStatus (Some (status o)) (to_trash now o))),
        stored)
  /\ (status o = "completed"%string ->
      delete_completed ObjectId_isValid Number_ d id now
      = (Json (to_trash now o), stored))
  /\ (status o <> "completed"%string ->
      delete_completed ObjectId_isValid Number_ d id now = (Status 400, d))
  /\ findById (orders stored) (_id o) = Some (persisted (to_trash now o)).
Proof.
  intros L Ht stored.
  assert (validate (to_trash now o) = true) as V
      by (apply validate_enum; simpl; auto).
  split; [|split; [|split; [|split]]].
  - unfold delete_orders. rewrite L. cbv zeta. unfold save.
    fold (to_trash now o). now rewrite V.
  - rewrite (delete_order_soft ObjectId_isValid Number_ d id o superKey now
               L Ht). reflexivity.
  - intros Hs. unfold delete_completed. rewrite L, Hs.
    change (negb (String.eqb "completed" "completed")) with false.
    cbv iota zeta. unfold save. fold (to_trash now o). now rewrite V.
  - intros Hs. unfold delete_completed. rewrite L.
    apply String.eqb_neq in Hs. now rewrite Hs.
  - subst stored. cbn [orders with_orders]. unfold findById.
    rewrite find_map_same by (intros x _; now rewrite replace_doc_id).
    apply findOrderByAnyId_In in L.
    destruct (find (fun x => String.eqb (_id x) (_id o)) (orders d))
      as [x|] eqn:E.
    + apply find_some in E. destruct E as (_ & E).
      apply String.eqb_eq in E. simpl. unfold replace_doc. simpl _id.
      rewrite E. now rewrite String.eqb_refl.
    + apply (find_none _ _ E) in L. simpl in L.
      now rewrite String.eqb_refl in L.
Qed.

(** X12: a permanent delete with a super-key header removes the documents
    with the [_id] of the resolved order and nothing else: that [_id] is
    found no more, every other order stays, the counter is not touched.
    Without such a header the answer is 403 and nothing is removed. *)
Theorem delete_order_permanent d id o now :
  findOrderByAnyId ObjectId_isValid Number_ (orders d) id = Some o ->
  exists d',
    delete_order ObjectId_isValid Number_ d id true true now = (Json None, d')
    /\ findById (orders d') (_id o) = None
    /\ (forall x, In x (orders d') <-> In x (orders d) /\ _id x <> _id o)
    /\ counter d' = counter d
    /\ delete_order ObjectId_isValid Number_ d id true false now
       = (Status 403, d).
Proof.
  intros L. unfold delete_order. rewrite L. cbv iota. simpl negb. cbv iota.
  eexists. split; [reflexivity|]. cbn [orders with_orders counter].
  split; [|split; [|split; reflexivity]].
  - unfold findById.
    destruct (find _ (filter _ (orders d))) as [x|] eqn:E; [|reflexivity].
    apply find_some in E. destruct E as (Hx & E).
    apply filter_In in Hx. destruct Hx as (_ & Hx).
    rewrite E in Hx. discriminate.
  - intros x. rewrite filter_In. split; intros (Hx & Hn); split; auto.
    + apply negb_true_iff in Hn. now apply String.eqb_neq.
    + apply negb_true_iff. now apply String.eqb_neq.
Qed.

(** X13: creating an order under a fresh, valid [_id] and deleting it
    permanently by that [_id] gives back the collection as it was; only the
    counter remembers the order, so its number is not issued again. *)
Theorem create_then_permanent_delete d body now created new_id
        new_externalId o d1 deletedNow :
  ObjectId_isValid new_id = true ->
  (forall x, In x (orders d) -> _id x <> new_id) ->
  post_order env d body now created new_id new_externalId = (Json o, d1) ->
  exists d2,
    delete_order ObjectId_isValid Number_ d1 new_id true true deletedNow
    = (Json None, d2)
    /\ orders d2 = orders d
    /\ seq_value d2 = orderId o
    /\ seq_value d2 = seq_value d + 1.
Proof.
  intros Hv Hfresh H. apply post_order_created in H.
  destruct H as (Hn & Hc & Ho & Hid & _).
  assert (findOrderByAnyId ObjectId_isValid Number_ (orders d1) new_id
          = Some o) as L.
  { unfold findOrderByAnyId, findById. rewrite Hv, Ho, find_snoc.
    destruct (find (fun x => String.eqb (_id x) new_id) (orders d))
      as [x|] eqn:E.
    - apply find_some in E. destruct E as (Hx & E).
      apply String.eqb_eq in E. now destruct (Hfresh x Hx).
    - now rewrite Hid, String.eqb_refl. }
  unfold delete_order. rewrite L. cbv iota. simpl negb. cbv iota.
  eexists. split; [reflexivity|]. cbn [orders with_orders].
  split; [|split].
  - rewrite Ho, filter_app. cbn [filter]. rewrite String.eqb_refl.
    simpl negb. cbv iota. rewrite app_nil_r.
    apply forallb_filter_id. apply forallb_forall. intros x Hx.
    apply negb_true_iff. apply String.eqb_neq. rewrite Hid.
    now apply Hfresh.
  - unfold seq_value. cbn [counter with_orders]. now rewrite Hc.
  - unfold seq_value at 1. cbn [counter with_orders]. now rewrite Hc.
Qed.

(** X14: the permanent delete looks only at the presence of a super-key
    header.  With any non-empty header value other than the super key the
    middleware of the administrative routes refuses the request, yet the
    permanent delete removes the order; and a request that carries the
    right key in its body, which the middleware accepts, is answered with
    403 by the permanent delete. *)
Theorem permanent_delete_checks_header_presence envKey d id o now wrong
        h2 bodyKey queryKey :
  findOrderByAnyId ObjectId_isValid Number_ (orders d) id = Some o ->
  wrong <> EmptyString ->
  wrong <> SUPER_KEY envKey ->
  superMiddleware envKey (Some wrong) h2 bodyKey queryKey = false
  /\ delete_order ObjectId_isValid Number_ d id true
                  (has_super_header (Some wrong) h2) now
     = (Json None,
        with_orders
          (filter (fun x => negb (String.eqb (_id x) (_id o))) (orders d)) d)
  /\ superMiddleware envKey None None (Some (SUPER_KEY envKey)) queryKey
     = true
  /\ delete_order ObjectId_isValid Number_ d id true
                  (has_super_header None None) now
     = (Status 403, d).
Proof.
  intros L Hne Hwrong.
  assert (truthy (Some wrong) = Some wrong) as T
      by (destruct wrong; [contradiction|reflexivity]).
  assert (SUPER_KEY envKey <> EmptyString) as Hk.
  { unfold SUPER_KEY. destruct envKey as [[|c k]|]; simpl; discriminate. }
  split; [|split; [|split]].
  - unfold superMiddleware, or_else. rewrite T.
    now apply String.eqb_neq.
  - unfold has_super_header. rewrite T. simpl.
    unfold delete_order. rewrite L. reflexivity.
  - unfold superMiddleware, or_else. simpl truthy.
    destruct (SUPER_KEY envKey) as [|c k] eqn:E; [contradiction|].
    simpl truthy. apply String.eqb_refl.
  - unfold delete_order. rewrite L. reflexivity.
Qed.

End Deletes.

Lemma soft_deletes_agree_witness :
  findOrderByAnyId Sample.isValid Sample.Number_ (orders Sample.db3) "2"
  = Some Sample.cash2
  /\ In (type Sample.cash2) type_enum
  /\ snd (delete_order Sample.isValid Sample.Number_ Sample.db3 "2"
                       false false 9000)
     = snd (delete_orders Sample.isValid Sample.Number_ Sample.db3 "2" 9000)
  /\ delete_completed Sample.isValid Sample.Number_ Sample.db3 "2" 9000
     = (Status 400, Sample.db3).
Proof.
  assert (In (type Sample.cash2) type_enum) as Ht by (simpl; auto).
  destruct (soft_deletes_agree Sample.isValid Sample.Number_ Sample.db3 "2"
              Sample.cash2 9000 false eq_refl Ht) as (A & B & _ & C & _).
  split; [reflexivity|]. split; [exact Ht|].
  split; [now rewrite A, B|]. apply C. discriminate.
Defined.

Lemma delete_order_permanent_witness :
  findOrderByAnyId Sample.isValid Sample.Number_ (orders Sample.db3) "2"
  = Some Sample.cash2
  /\ exists d',
       delete_order Sample.isValid Sample.Number_ Sample.db3 "2" true true
                    9000 = (Json None, d')
       /\ findById (orders d') (_id Sample.cash2) = None
       /\ In Sample.vip1 (orders d').
Proof.
  split; [reflexivity|].
  destruct (delete_order_permanent Sample.isValid Sample.Number_ Sample.db3
              "2" Sample.cash2 9000 eq_refl) as (d' & E & F & K & _).
  exists d'. split; [exact E|]. split; [exact F|].
  apply K. split; [simpl; auto|discriminate].
Defined.

Lemma create_then_permanent_delete_witness :
  Sample.isValid "aaaaaaaaaaaaaaaaaaaaaaa4" = true
  /\ (forall x, In x (orders Sample.db3) ->
                _id x <> "aaaaaaaaaaaaaaaaaaaaaaa4"%string)
  /\ orders
       (snd (delete_order Sample.isValid Sample.Number_
               (snd (post_order None Sample.db3
                       (Sample.body "cash" (Some 15000) None)
                       1000 1000 "aaaaaaaaaaaaaaaaaaaaaaa4" "x4"))
               "aaaaaaaaaaaaaaaaaaaaaaa4" true true 2000))
     = orders Sample.db3.
Proof.
  assert (forall x, In x (orders Sample.db3) ->
                    _id x <> "aaaaaaaaaaaaaaaaaaaaaaa4"%string) as Hfresh
      by (simpl; intros x [<-|[<-|[<-|[]]]]; discriminate).
  split; [reflexivity|]. split; [exact Hfresh|].
  destruct (post_order None Sample.db3 (Sample.body "cash" (Some 15000) None)
              1000 1000 "aaaaaaaaaaaaaaaaaaaaaaa4" "x4") as (r, d1) eqn:E.
  assert (exists o, r = Json o) as (o & ->)
      by (vm_compute in E; injection E as <- _; eexists; reflexivity).
  destruct (create_then_permanent_delete None Sample.isValid Sample.Number_
              Sample.db3 (Sample.body "cash" (Some 15000) None) 1000 1000
              "aaaaaaaaaaaaaaaaaaaaaaa4" "x4" o d1 2000 eq_refl Hfresh E)
    as (d2 & D & O & _).
  simpl snd. now rewrite D.
Defined.

Lemma permanent_delete_checks_header_presence_witness :
  findOrderByAnyId Sample.isValid Sample.Number_ (orders Sample.db3) "2"
  = Some Sample.cash2
  /\ "guess"%string <> EmptyString
  /\ "guess"%string <> SUPER_KEY None
  /\ superMiddleware None (Some "guess"%string) None None None = false
  /\ fst (delete_order Sample.isValid Sample.Number_ Sample.db3 "2" true
                       (has_super_header (Some "guess"%string) None) 9000)
     = Json None.
Proof.
  assert ("guess"%string <> EmptyString) as H1 by discriminate.
  assert ("guess"%string <> SUPER_KEY None) as H2 by discriminate.
  destruct (permanent_delete_checks_header_presence Sample.isValid
              Sample.Number_ None Sample.db3 "2" Sample.cash2 9000 "guess"
              None None None eq_refl H1 H2) as (A & B & _).
  split; [reflexivity|]. split; [exact H1|]. split; [exact H2|].
  split; [exact A|]. now rewrite B.
Defined.

(** ** Daily reset, archive of the day, clear *)

Lemma not_active_trash (o : Order) :
  validate o = true -> active o = false -> status o = "trash"%string.
Proof.
  intros V A. apply validate_type in V. destruct V as (_ & Vs).
  unfold active in A. apply orb_false_iff in A. destruct A as (A1 & A2).
  apply String.eqb_neq in A1, A2.
  simpl in Vs. intuition congruence.
Qed.

Lemma trash_filters (coll : list Order) (p : Order -> bool) :
  Forall (fun o => status o = "trash"%string) coll ->
  (forall o, status o = "trash"%string -> p o = false) ->
  filter p coll = [].
Proof.
  intros Hall Hp. induction Hall as [|o coll Ho _ IH]; [reflexivity|].
  simpl. now rewrite (Hp o Ho).
Qed.

(** X15: the daily reset answers the number of orders in process or
    completed and moves exactly those to trash with deletedAt now; no order
    is removed, no other field of any order changes, and orders already in
    trash keep their deletedAt.  On a collection within the schema every
    order is then in trash, so a second reset modifies nothing and the
    sweep matches nothing. *)
Theorem daily_reset_spec (d : Db) (now later : Z) :
  Forall (fun o => validate o = true) (orders d) ->
  fst (daily_reset d now) = List.length (filter active (orders d))
  /\ map (fun o => (_id o, orderId o, externalId o, ps o, type o,
                    startTime o, endTime o, summa o, createdAt o,
                    completedAt o))
         (orders (snd (daily_reset d now)))
     = map (fun o => (_id o, orderId o, externalId o, ps o, type o,
                      startTime o, endTime o, summa o, createdAt o,
                      completedAt o))
           (orders d)
  /\ map deletedAt (orders (snd (daily_reset d now)))
     = map (fun o => if active o then Some now else deletedAt o) (orders d)
  /\ Forall (fun o => status o = "trash"%string)
            (orders (snd (daily_reset d now)))
  /\ counter (snd (daily_reset d now)) = counter d
  /\ daily_reset (snd (daily_reset d now)) later
     = (0%nat, snd (daily_reset d now))
  /\ autoComplete (snd (daily_reset d now)) later = snd (daily_reset d now).
Proof.
  intros V. unfold daily_reset. cbn [fst snd orders with_orders counter].
  assert (Forall (fun o => status o = "trash"%string)
            (map (fun o => if active o then to_trash now o else o)
                 (orders d))) as T.
  { apply Forall_forall. intros x Hx. apply in_map_iff in Hx.
    destruct Hx as (o & <- & Ho). destruct (active o) eqn:A; [reflexivity|].
    apply not_active_trash; [|exact A].
    rewrite Forall_forall in V. now apply V. }
  split; [reflexivity|]. split; [|split; [|split; [exact T|split;
                                                    [reflexivity|split]]]].
  - rewrite map_map. apply map_ext. intros o. destruct (active o); reflexivity.
  - rewrite map_map. apply map_ext. intros o. destruct (active o); reflexivity.
  - rewrite (trash_filters _ active T)
      by (intros o Ho; unfold active; now rewrite Ho).
    f_equal. apply Db_ext; [|reflexivity]. cbn [orders with_orders].
    rewrite <- (map_id (map _ (orders d))) at 2.
    apply map_ext_in. intros o Ho. rewrite Forall_forall in T.
    unfold active. now rewrite (T o Ho).
  - unfold autoComplete. cbn [orders with_orders].
    rewrite (trash_filters _ (expired later) T)
      by (intros o Ho; unfold expired; now rewrite Ho).
    reflexivity.
Qed.

Lemma daily_reset_spec_witness :
  Forall (fun o => validate o = true) (orders Sample2.db5)
  /\ fst (daily_reset Sample2.db5 9000) = 4%nat
  /\ map status (orders (snd (daily_reset Sample2.db5 9000)))
     = ["trash"; "trash"; "trash"; "trash"; "trash"]%string
  /\ map deletedAt (orders (snd (daily_reset Sample2.db5 9000)))
     = [Some 9000; Some 9000; Some 9000; Some 9000; Some 4000000].
Proof.
  assert (Forall (fun o => validate o = true) (orders Sample2.db5)) as V
      by (repeat constructor).
  destruct (daily_reset_spec Sample2.db5 9000 9001 V) as (A & _ & B & _).
  split; [exact V|]. split; [rewrite A; reflexivity|].
  split; [reflexivity|]. rewrite B. reflexivity.
Defined.

Lemma totalSum_from (coll : list Order) (acc : Z) :
  fold_left (fun sum o => sum + summa o) coll acc = acc + totalSum coll.
Proof.
  unfold totalSum. revert acc.
  induction coll as [|o coll IH]; intros acc; simpl; [lia|].
  rewrite (IH (acc + summa o)), (IH (summa o)). lia.
Qed.

Lemma totalSum_cons (o : Order) (coll : list Order) :
  totalSum (o :: coll) = summa o + totalSum coll.
Proof. unfold totalSum at 1. simpl. apply totalSum_from. Qed.

Lemma trashed_match_no_more (p : Order -> bool) (now : Z)
      (coll : list Order) :
  (forall o, p (to_trash now o) = false) ->
  filter p (map (fun o => if p o then to_trash now o else o) coll) = [].
Proof.
  intros Hp. induction coll as [|o coll IH]; [reflexivity|].
  cbn [map filter]. destruct (p o) eqn:T.
  - now rewrite Hp.
  - now rewrite T.
Qed.

(** X16: the archive of the day, on a collection with distinct [_id]s.  When
    no order created in the day's window is in process or completed, the
    answer is the no-op and nothing is written.  Otherwise one archive is
    appended whose orders are exactly those orders, as they were stored,
    in collection order, and whose totalSum is the sum of their summa; the
    same orders, and no others, go to trash with deletedAt now; the
    counter is not touched; and archiving the same window again is the
    no-op. *)
Theorem archive_day_spec (st : Store) (dayStart dayEnd : Z)
        (dateStr dateStr' : string) (now created later created' : Z) :
  NoDup (map _id (orders (db st))) ->
  let today :=
    fun o => created_between dayStart dayEnd o && active o in
  let found := filter today (orders (db st)) in
  (found = [] ->
   archive_day st dayStart dayEnd dateStr now created = (Json None, st))
  /\ (found <> [] ->
      exists st',
        archive_day st dayStart dayEnd dateStr now created
        = (Json (Some (List.length found, totalSum found)), st')
        /\ archives st'
           = archives st ++ [ArchiveDoc.mk dateStr found (totalSum found)
                                           created]
        /\ orders (db st')
           = map (fun o => if today o then to_trash now o else o)
                 (orders (db st))
        /\ counter (db st') = counter (db st)
        /\ archive_day st' dayStart dayEnd dateStr' later created'
           = (Json None, st')).
Proof.
  intros ND today found. unfold archive_day. fold today. fold found. split.
  - intros ->. reflexivity.
  - intros Hne. destruct found as [|f rest] eqn:F; [contradiction|].
    rewrite <- F.
    assert (forall o, In o (orders (db st)) ->
                      existsb (String.eqb (_id o)) (map _id found) = today o)
      as Hids.
    { intros o Ho. destruct (today o) eqn:T.
      - apply existsb_exists. exists (_id o). split; [|apply String.eqb_refl].
        apply in_map. subst found. apply filter_In. auto.
      - destruct (existsb _ _) eqn:E; [|reflexivity].
        apply existsb_exists in E. destruct E as (i & Hi & E).
        apply String.eqb_eq in E. apply in_map_iff in Hi.
        destruct Hi as (x & Hx & Hin). subst found.
        apply filter_In in Hin. destruct Hin as (Hin & Tx).
        assert (o = x) as -> by (apply (NoDup_map_eq _id (orders (db st)));
                                 auto; congruence).
        congruence. }
    assert (map (fun o => if existsb (String.eqb (_id o)) (map _id found)
                          then to_trash now o else o) (orders (db st))
            = map (fun o => if today o then to_trash now o else o)
                  (orders (db st))) as Hmap.
    { apply map_ext_in. intros o Ho. now rewrite (Hids o Ho). }
    rewrite Hmap. eexists. split; [reflexivity|].
    cbn [archives db orders with_orders counter].
    split; [reflexivity|]. split; [reflexivity|]. split; [reflexivity|].
    rewrite (trashed_match_no_more today now (orders (db st))).
    + reflexivity.
    + intros o. unfold today, active. simpl. now rewrite andb_false_r.
Qed.

Lemma archive_day_spec_witness :
  NoDup (map _id (orders (db Sample2.store5)))
  /\ fst (archive_day Sample2.store5 0 86399999 "1970-01-01" 9000 9001)
     = Json (Some (4%nat, 46000))
  /\ fst (archive_day
            (snd (archive_day Sample2.store5 0 86399999 "1970-01-01"
                              9000 9001))
            0 86399999 "1970-01-01" 9500 9501)
     = Json None.
Proof.
  assert (NoDup (map _id (orders (db Sample2.store5)))) as ND.
  { simpl. repeat constructor; simpl; intuition discriminate. }
  destruct (archive_day_spec Sample2.store5 0 86399999 "1970-01-01"
              "1970-01-01" 9000 9001 9500 9501 ND) as (_ & H).
  destruct H as (st' & E & _ & _ & _ & Again); [discriminate|].
  split; [exact ND|]. rewrite E. simpl snd. rewrite Again.
  split; reflexivity.
Defined.

Section Clear.

Variable env : option Z.
Variable ObjectId_isValid : string -> bool.
Variable Number_ : string -> option Q.

(** X17: clear answers the number of orders, the sum of their summa and the
    number of archives, and leaves both collections empty: afterwards no
    identifier resolves to an order.  The counter is not cleared: the next
    order created gets the number after the last one issued before the
    clear, and is alone in the collection. *)
Theorem clear_spec (st : Store) :
  fst (clear st)
  = (List.length (orders (db st)), totalSum (orders (db st)),
     List.length (archives st))
  /\ orders (db (snd (clear st))) = []
  /\ archives (snd (clear st)) = []
  /\ (forall id,
         findOrderByAnyId ObjectId_isValid Number_
           (orders (db (snd (clear st)))) id = None)
  /\ seq_value (db (snd (clear st))) = seq_value (db st)
  /\ (forall body now created new_id new_externalId o d',
         post_order env (db (snd (clear st))) body now created new_id
                    new_externalId = (Json o, d') ->
         orderId o = seq_value (db st) + 1 /\ orders d' = [o]).
Proof.
  unfold clear. cbn [fst snd db archives orders with_orders].
  split; [reflexivity|]. split; [reflexivity|]. split; [reflexivity|].
  split; [|split; [reflexivity|]].
  - intros id. unfold findOrderByAnyId, findById, findOne_orderId,
                 findOne_externalId. simpl.
    destruct (ObjectId_isValid id), (Number_ id); reflexivity.
  - intros body now created new_id new_externalId o d' H.
    apply post_order_created in H. destruct H as (Hn & _ & Ho & _).
    split; [exact Hn|exact Ho].
Qed.

End Clear.

(** ** The chunked sender: a report that fits *)

Lemma loop_fits (lines : list string) (sent : list string) (chunk : string) :
  (String.length
     (String.append chunk (Telegram.flatten (map Telegram.with_nl lines)))
   <= Telegram.MAX)%nat ->
  fold_left Telegram.step lines (sent, chunk)
  = (sent,
     String.append chunk (Telegram.flatten (map Telegram.with_nl lines))).
Proof.
  revert chunk. induction lines as [|line lines IH]; intros chunk Hfit.
  - simpl. now rewrite append_empty_r.
  - cbn [fold_left map Telegram.flatten] in *. rewrite step_rule.
    rewrite <- append_assoc in Hfit.
    replace (_ <? _)%nat with false.
    + rewrite IH by exact Hfit. now rewrite append_assoc.
    + symmetry. apply Nat.ltb_ge. rewrite length_append in Hfit. lia.
Qed.

(** X18: when the title line and all the lines with their newlines are
    together at most 4000 long, the sender hands over exactly one text, the
    whole report, or nothing at all when that text is blank. *)
Theorem sendToTelegramChunks_single (lines : list string) (title : string) :
  let whole :=
    String.append (Telegram.first_chunk title)
                  (Telegram.flatten (map Telegram.with_nl lines)) in
  (String.length whole <= Telegram.MAX)%nat ->
  Telegram.sendToTelegramChunks lines title
  = if Telegram.nonempty (Telegram.trim whole) then [whole] else [].
Proof.
  intros whole Hfit. unfold Telegram.sendToTelegramChunks.
  rewrite (loop_fits lines [] (Telegram.first_chunk title) Hfit).
  fold whole. destruct (Telegram.nonempty (Telegram.trim whole)); reflexivity.
Qed.

Lemma sendToTelegramChunks_single_witness :
  (String.length
     (String.append (Telegram.first_chunk "T")
        (Telegram.flatten (map Telegram.with_nl ["a"%string; "b"%string])))
   <= Telegram.MAX)%nat
  /\ List.length
       (Telegram.sendToTelegramChunks ["a"%string; "b"%string] "T") = 1%nat
  /\ Telegram.sendToTelegramChunks [] EmptyString = [].
Proof.
  assert (String.length
            (String.append (Telegram.first_chunk "T")
               (Telegram.flatten
                  (map Telegram.with_nl ["a"%string; "b"%string])))
          <= Telegram.MAX)%nat as H1
      by (apply Nat.leb_le; vm_compute; reflexivity).
  assert (String.length
            (String.append (Telegram.first_chunk EmptyString)
               (Telegram.flatten (map Telegram.with_nl [])))
          <= Telegram.MAX)%nat as H2
      by (apply Nat.leb_le; vm_compute; reflexivity).
  split; [exact H1|]. split.
  - rewrite (sendToTelegramChunks_single ["a"%string; "b"%string] "T" H1).
    reflexivity.
  - rewrite (sendToTelegramChunks_single [] EmptyString H2). reflexivity.
Defined.

(** ** The two server variants *)

Section Variants.

Variable env : option Z.
Variable ObjectId_isValid : string -> bool.
Variable Number_ : string -> option Q.

(** X19: the older and the newer complete route agree on vip orders, and
    on cash orders whose endTime has been reached: they answer the same
    order and leave the same database.  They differ on a cash order
    completed before its endTime: the older route leaves summa and endTime
    as they are, the newer one stores the accrued amount and now. *)
Theorem complete_variants d id o now cn :
  findOrderByAnyId ObjectId_isValid Number_ (orders d) id = Some o ->
  (type o = "vip"%string \/
   (type o = "cash"%string /\ exists e, endTime o = Some e /\ e <= now) ->
   exists b d',
     post_complete env ObjectId_isValid Number_ d id now cn = (Json b, d')
     /\ post_complete_old env ObjectId_isValid Number_ d id now cn
        = (Json (order b), d'))
  /\ (type o = "cash"%string ->
      forall e, endTime o = Some e -> now < e ->
      exists b d' d_old,
        post_complete env ObjectId_isValid Number_ d id now cn = (Json b, d')
        /\ summa (order b) = accruedOfMs env (now - startTime o)
        /\ endTime (order b) = Some now
        /\ post_complete_old env ObjectId_isValid Number_ d id now cn
           = (Json (mark_completed cn o), d_old)).
Proof.
  intros L. split.
  - intros [Hv|(Hc & e & He & Hle)].
    + rewrite (post_complete_vip env ObjectId_isValid Number_ d id o now cn
                 L Hv).
      eexists. eexists. split; [reflexivity|].
      unfold post_complete_old. rewrite L, Hv.
      change (String.eqb "vip" "vip") with true. cbv iota zeta.
      unfold save. rewrite validate_mark_completed
        by (simpl; rewrite Hv; simpl; auto).
      reflexivity.
    + rewrite (post_complete_cash env ObjectId_isValid Number_ d id o now cn
                 L Hc).
      rewrite He.
      replace (now <? e) with false by (symmetry; apply Z.ltb_ge; lia).
      eexists. eexists. split; [reflexivity|].
      unfold post_complete_old. rewrite L, Hc, He.
      change (String.eqb "cash" "vip") with false. cbv iota zeta.
      unfold save. rewrite validate_mark_completed
        by (rewrite Hc; simpl; auto).
      reflexivity.
  - intros Hc e He Hlt.
    rewrite (post_complete_cash env ObjectId_isValid Number_ d id o now cn
               L Hc).
    rewrite He. apply Z.ltb_lt in Hlt. rewrite Hlt.
    eexists. eexists. eexists. split; [reflexivity|].
    split; [reflexivity|]. split; [reflexivity|].
    unfold post_complete_old. rewrite L, Hc, He.
    change (String.eqb "cash" "vip") with false. cbv iota zeta.
    unfold save. rewrite validate_mark_completed
      by (rewrite Hc; simpl; auto).
    reflexivity.
Qed.

End Variants.

Lemma complete_variants_witness :
  findOrderByAnyId Sample.isValid Sample.Number_ (orders Sample.db3) "1"
  = Some Sample.vip1
  /\ option_map order
       (Sample.answer
          (post_complete None Sample.isValid Sample.Number_ Sample.db3 "1"
                         3600000 3600001))
     = Sample.answer
         (post_complete_old None Sample.isValid Sample.Number_ Sample.db3 "1"
                            3600000 3600001).
Proof.
  split; [reflexivity|].
  destruct (complete_variants None Sample.isValid Sample.Number_ Sample.db3
              "1" Sample.vip1 3600000 3600001 eq_refl) as (Same & _).
  destruct (Same (or_introl eq_refl)) as (b & d' & E1 & E2).
  rewrite E1, E2. reflexivity.
Defined.

(** ** The daily report *)

Lemma sum_from {A : Type} (g : A -> Z) (l : list A) (acc : Z) :
  fold_left (fun s x => s + g x) l acc
  = acc + fold_left (fun s x => s + g x) l 0.
Proof.
  revert acc. induction l as [|x l IH]; intros acc; simpl; [lia|].
  rewrite (IH (acc + g x)), (IH (g x)). lia.
Qed.

Lemma sum_permuted {A : Type} (g : A -> Z) (l l' : list A) :
  Permutation l l' ->
  fold_left (fun s x => s + g x) l 0 = fold_left (fun s x => s + g x) l' 0.
Proof.
  induction 1 as [|x l l' _ IH|x y l|l l1 l2 _ IH1 _ IH2];
    cbn [fold_left].
  - reflexivity.
  - rewrite (sum_from g l), (sum_from g l'). now rewrite IH.
  - rewrite (sum_from g l (0 + g y + g x)), (sum_from g l (0 + g x + g y)).
    lia.
  - now rewrite IH1.
Qed.

Lemma sum_pointwise {A : Type} (g h : A -> Z) (l : list A) :
  (forall x, In x l -> g x <= h x) ->
  fold_left (fun s x => s + g x) l 0 <= fold_left (fun s x => s + h x) l 0.
Proof.
  induction l as [|x l IH]; intros H; simpl; [lia|].
  rewrite (sum_from g l), (sum_from h l).
  pose proof (H x (or_introl eq_refl)).
  pose proof (IH (fun y Hy => H y (or_intror Hy))). lia.
Qed.

Lemma sum_mapped {A B : Type} (f : A -> B) (g : B -> Z) (l : list A)
      (acc : Z) :
  fold_left (fun s y => s + g y) (map f l) acc
  = fold_left (fun s x => s + g (f x)) l acc.
Proof.
  revert acc. induction l as [|x l IH]; intros acc; simpl; [reflexivity|].
  apply IH.
Qed.

Section Report.

Variable env : option Z.
Variable sort_createdAt : list Order -> list Order.

(** X20: the daily report, whatever permutation the sort of the query
    returns.  It shows the orders created in the window that are not in
    trash, and counts them; the flag of provisional summa is set exactly on
    the vip orders in process; the total is the sum of the stored summa of
    the other orders and of the amount accrued up to now by the flagged
    ones, so at a positive price it does not go down as now advances. *)
Theorem daily_report_total (d : Db) (dayStart dayEnd now1 now2 : Z) :
  (forall l, Permutation (sort_createdAt l) l) ->
  0 < PRICE_PER_HOUR env ->
  now1 <= now2 ->
  let shown :=
    filter (fun o => created_between dayStart dayEnd o
                     && negb (String.eqb (status o) "trash"))
           (orders d) in
  let report := daily_report env sort_createdAt d dayStart dayEnd in
  fst (fst (report now1)) = List.length shown
  /\ snd (fst (report now1))
     = fold_left
         (fun s o => s + (if String.eqb (status o) "process"
                             && String.eqb (type o) "vip"
                          then vipAccruedAmount env (startTime o) now1
                          else summa o))
         shown 0
  /\ snd (fst (report now1)) <= snd (fst (report now2))
  /\ Forall (fun r => status (fst r) <> "trash"%string
                      /\ created_between dayStart dayEnd (fst r) = true
                      /\ snd r = String.eqb (status (fst r)) "process"
                                 && String.eqb (type (fst r)) "vip")
            (snd (report now1)).
Proof.
  intros Hsort HP Hle shown report. subst report. unfold daily_report.
  fold shown. cbn [fst snd].
  assert (forall now o,
             summa (fst (report_overlay env now o))
             = if String.eqb (status o) "process"
                  && String.eqb (type o) "vip"
               then vipAccruedAmount env (startTime o) now
               else summa o) as Hov.
  { intros now o. unfold report_overlay.
    destruct (_ && _); reflexivity. }
  assert (forall now,
             fold_left (fun s r => s + summa (fst r))
               (map (report_overlay env now) (sort_createdAt shown)) 0
             = fold_left
                 (fun s o => s + (if String.eqb (status o) "process"
                                     && String.eqb (type o) "vip"
                                  then vipAccruedAmount env (startTime o) now
                                  else summa o))
                 shown 0) as Htotal.
  { intros now.
    rewrite (sum_mapped (report_overlay env now)
               (fun r => summa (fst r))).
    rewrite (sum_permuted _ _ _ (Hsort shown)).
    apply Z.le_antisymm; apply sum_pointwise; intros o _; rewrite Hov; lia. }
  split; [|split; [|split]].
  - rewrite length_map. now apply Permutation_length.
  - rewrite Htotal. reflexivity.
  - rewrite !Htotal. apply sum_pointwise. intros o _.
    destruct (_ && _); [|lia].
    apply accruedOfMs_le; [assumption|lia].
  - apply Forall_forall. intros r Hr. apply in_map_iff in Hr.
    destruct Hr as (o & <- & Ho).
    apply (Permutation_in _ (Hsort shown)) in Ho.
    subst shown. apply filter_In in Ho. destruct Ho as (_ & Ho).
    apply andb_true_iff in Ho. destruct Ho as (Hc & Hs).
    apply negb_true_iff in Hs. apply String.eqb_neq in Hs.
    unfold report_overlay. destruct (_ && _) eqn:E; simpl.
    + repeat split; auto.
    + repeat split; auto.
Qed.

End Report.

Lemma daily_report_total_witness :
  (forall l : list Order, Permutation ((fun x => x) l) l)
  /\ 0 < PRICE_PER_HOUR None /\ 3600000 <= 7200000
  /\ fst (fst (daily_report None (fun x => x) Sample2.db5 0 86399999
                            3600000)) = 4%nat
  /\ snd (fst (daily_report None (fun x => x) Sample2.db5 0 86399999
                            3600000))
     <= snd (fst (daily_report None (fun x => x) Sample2.db5 0 86399999
                               7200000)).
Proof.
  assert (forall l : list Order, Permutation ((fun x => x) l) l) as Hs
      by (intros l; apply Permutation_refl).
  assert (0 < PRICE_PER_HOUR None) as HP by reflexivity.
  assert (3600000 <= 7200000) as Hle by lia.
  destruct (daily_report_total None (fun x => x) Sample2.db5 0 86399999
              3600000 7200000 Hs HP Hle) as (C & _ & M & _).
  split; [exact Hs|]. split; [exact HP|]. split; [exact Hle|].
  split; [rewrite C; reflexivity|exact M].
Defined.

(** ** The doubles of the server against the exact arithmetic *)

Lemma accrued_near_minutes :
  forallb (fun price => forallb (accrued_near price) (grid 0 60000 1441))
          sample_prices = true.
Proof. vm_compute. reflexivity. Qed.

Lemma duration_near_amounts :
  forallb (fun price => forallb (duration_near price) (grid 500 500 600))
          sample_prices = true.
Proof. vm_compute. reflexivity. Qed.

(** X22: the billing lines evaluated in binary64, as the server computes
    them, against the exact arithmetic of the handlers above, at 10000,
    12000, 15000, 20000 and 30000 per hour.  For every whole minute of a
    day the accrued amount on doubles is the exact one or exactly 1000
    more; for every amount that is a multiple of 500, up to 300000, the
    duration on doubles is the exact one or one millisecond less. *)
Theorem binary64_near_exact (price x : Z) :
  In price sample_prices ->
  (In x (grid 0 60000 1441) ->
   exists a,
     Binary64.accruedOfMs price x = Some a
     /\ (a = accruedOfMs (Some price) x
         \/ a = accruedOfMs (Some price) x + 1000))
  /\ (In x (grid 500 500 600) ->
      exists ms,
        Binary64.cashDurationFromAmount price x = Some ms
        /\ (ms = cashDurationFromAmount (Some price) x
            \/ ms = cashDurationFromAmount (Some price) x - 1)).
Proof.
  intros Hp. split; intros Hx.
  - pose proof accrued_near_minutes as G.
    rewrite forallb_forall in G. specialize (G price Hp).
    rewrite forallb_forall in G. specialize (G x Hx).
    unfold accrued_near in G.
    destruct (Binary64.accruedOfMs price x) as [a|]; [|discriminate].
    exists a. split; [reflexivity|].
    apply orb_true_iff in G. destruct G as [G|G]; apply Z.eqb_eq in G; auto.
  - pose proof duration_near_amounts as G.
    rewrite forallb_forall in G. specialize (G price Hp).
    rewrite forallb_forall in G. specialize (G x Hx).
    unfold duration_near in G.
    destruct (Binary64.cashDurationFromAmount price x) as [ms|];
      [|discriminate].
    exists ms. split; [reflexivity|].
    apply orb_true_iff in G. destruct G as [G|G]; apply Z.eqb_eq in G; auto.
Qed.

(** At 15000 per hour: 124 minutes accrue 32000 on doubles and 31000
    exactly; an amount of 32500 lasts 7799999 ms on doubles and 7800000
    exactly. *)
Lemma binary64_near_exact_witness :
  In 15000 sample_prices
  /\ In 7440000 (grid 0 60000 1441)
  /\ In 32500 (grid 500 500 600)
  /\ (exists a,
        Binary64.accruedOfMs 15000 7440000 = Some a
        /\ (a = accruedOfMs (Some 15000) 7440000
            \/ a = accruedOfMs (Some 15000) 7440000 + 1000))
  /\ (exists ms,
        Binary64.cashDurationFromAmount 15000 32500 = Some ms
        /\ (ms = cashDurationFromAmount (Some 15000) 32500
            \/ ms = cashDurationFromAmount (Some 15000) 32500 - 1))
  /\ Binary64.accruedOfMs 15000 7440000 = Some 32000
  /\ accruedOfMs (Some 15000) 7440000 = 31000
  /\ Binary64.cashDurationFromAmount 15000 32500 = Some 7799999
  /\ cashDurationFromAmount (Some 15000) 32500 = 7800000.
Proof.
  assert (In 15000 sample_prices) as Hp by (simpl; auto).
  assert (In 7440000 (grid 0 60000 1441)) as H1.
  { apply in_map_iff. exists 124%nat. split; [reflexivity|].
    apply in_seq. lia. }
  assert (In 32500 (grid 500 500 600)) as H2.
  { apply in_map_iff. exists 64%nat. split; [reflexivity|].
    apply in_seq. lia. }
  split; [exact Hp|]. split; [exact H1|]. split; [exact H2|].
  split; [exact (proj1 (binary64_near_exact 15000 7440000 Hp) H1)|].
  split; [exact (proj2 (binary64_near_exact 15000 32500 Hp) H2)|].
  vm_compute. repeat split; reflexivity.
Defined.

Section Doubles.

Variable env : option Z.
Variable ObjectId_isValid : string -> bool.
Variable Number_ : string -> option Q.


End Doubles.

